(** * icevision: the SimpleConfusionMatrix metric

    A shallow embedding of
    [icevision/metrics/confusion_matrix/confusion_matrix.py]:
    the [MatchingPolicy] enumeration and the [SimpleConfusionMatrix]
    accumulator with its [accumulate], [finalize], [_reset] and [plot]
    methods.

    Python values are embedded as follows.
    - label ids (python [int]) are [Z];
    - the IoU threshold, IoU values and confidence scores (python
      [float]) are idealised as rationals [Q], compared with [Qle_bool];
    - the mutable object [self] is a record threaded through a state
      and exception monad: a raised exception leaves the mutations done
      before it in place, exactly as in Python;
    - [sklearn], [numpy] and [matplotlib] are outside the repository
      and enter as Section variables. *)

From Stdlib Require Import List ZArith QArith Qround String Ascii Bool Lia.
From Stdlib Require Import DecimalString.
Import ListNotations.

Local Open Scope Z_scope.
Local Open Scope string_scope.
Local Open Scope list_scope.

(** ** Exceptions *)

Inductive PyError : Type :=
| NotImplementedError
| RuntimeError (msg : string)
| AssertionError
| AttributeError (msg : string)
| IndexError (msg : string)
| ValueError (msg : string)
| Raised (what : string).   (* anything raised inside a collaborator *)

(** A computation that either raises or returns. *)
Definition result (A : Type) : Type := (PyError + A)%type.

Definition ok {A} (a : A) : result A := inr a.
Definition throw {A} (e : PyError) : result A := inl e.

Definition rbind {A B} (c : result A) (k : A -> result B) : result B :=
  match c with
  | inl e => inl e
  | inr a => k a
  end.

(** python's [len] of a list *)
Definition len {A} (l : list A) : Z := Z.of_nat (List.length l).

(** ** class MatchingPolicy(Enum) *)

Inductive MatchingPolicy : Type :=
| BEST_SCORE
| BEST_IOU.

Module MatchingPolicyEnum.

Definition value (m : MatchingPolicy) : Z :=
  match m with
  | BEST_SCORE => 1
  | BEST_IOU => 2
  end.

Definition name (m : MatchingPolicy) : string :=
  match m with
  | BEST_SCORE => "BEST_SCORE"
  | BEST_IOU => "BEST_IOU"
  end.

(** [list(MatchingPolicy)]: the members in definition order. *)
Definition members : list MatchingPolicy := [BEST_SCORE; BEST_IOU].

(** [repr] of an [Enum] member: [<MatchingPolicy.NAME: value>]. *)
Definition repr (m : MatchingPolicy) : string :=
  "<MatchingPolicy." ++ name m ++ ": "
    ++ NilZero.string_of_int (Z.to_int (value m)) ++ ">".

Definition eqb (a b : MatchingPolicy) : bool :=
  match a, b with
  | BEST_SCORE, BEST_SCORE => true
  | BEST_IOU, BEST_IOU => true
  | _, _ => false
  end.

End MatchingPolicyEnum.

(** [repr] of a python list given the [repr] of its elements. *)
Definition repr_list (items : list string) : string :=
  "[" ++ String.concat ", " items ++ "]".

(** The [policy] argument is only annotated as a [MatchingPolicy];
    at run time any object can be stored in [self._policy]. *)
Inductive PyObject : Type :=
| PyEnum (m : MatchingPolicy)
| PyNone
| PyInt (z : Z)
| PyStr (s : string).

(** [obj == MatchingPolicy.M]: plain [Enum] members compare by identity,
    so no [int], [str] or [None] is equal to one. *)
Definition py_eq_member (obj : PyObject) (m : MatchingPolicy) : bool :=
  match obj with
  | PyEnum m' => MatchingPolicyEnum.eqb m' m
  | _ => false
  end.

(** ** Records handed to the metric *)

Record ClassMap : Type := mkClassMap {
  _id2class : list string;
  _class2id : list (string * Z)   (* insertion-ordered dict *)
}.

(** [list(class_map._class2id.values())] *)
Definition class2id_values (cm : ClassMap) : list Z := map snd (_class2id cm).

Record BBox : Type := mkBBox {
  xmin : Q; ymin : Q; xmax : Q; ymax : Q
}.

Module Detection.
Record t : Type := mk {
  class_map : option ClassMap;
  bboxes : list BBox;
  labels : list string;     (* class names *)
  label_ids : list Z;
  scores : list Q
}.
End Detection.

Record BaseRecord : Type := mkRecord {
  detection : Detection.t
}.

Record Prediction : Type := mkPrediction {
  ground_truth : BaseRecord;
  pred : BaseRecord
}.

(** The items [match_records] hands back: one [target_item] per
    ground-truth box with the prediction items that overlap it. *)
Record TargetItem : Type := mkTargetItem {
  target_bbox : BBox;
  target_label_id : Z
}.

Record PredictionItem : Type := mkPredictionItem {
  predicted_bbox : BBox;
  predicted_label_id : Z;
  score : Q;
  iou_score : Q
}.

Definition Match : Type := (TargetItem * list PredictionItem)%type.

(** ** The accumulator object *)

Section Metric.

(** What lives outside the repository. *)
Variable Matrix : Type.      (* a numpy array *)
Variable Float : Type.       (* a numpy float64 *)
Variable Figure : Type.      (* a matplotlib figure *)

(** [self] of a [SimpleConfusionMatrix], together with what [print]
    has written so far ([stdout] is not a field of the python object). *)
Record SimpleConfusionMatrix : Type := mkSelf {
  print_summary : bool;
  target_labels : list Z;
  predicted_labels : list Z;
  _iou_threshold : Q;
  _policy : PyObject;
  class_map : option ClassMap;
  confusion_matrix : option Matrix;
  stdout : list (option Matrix)
}.

Definition set_target_labels (v : list Z) (s : SimpleConfusionMatrix) :=
  mkSelf (print_summary s) v (predicted_labels s) (_iou_threshold s)
         (_policy s) (class_map s) (confusion_matrix s) (stdout s).

Definition set_predicted_labels (v : list Z) (s : SimpleConfusionMatrix) :=
  mkSelf (print_summary s) (target_labels s) v (_iou_threshold s)
         (_policy s) (class_map s) (confusion_matrix s) (stdout s).

Definition set_class_map (v : option ClassMap) (s : SimpleConfusionMatrix) :=
  mkSelf (print_summary s) (target_labels s) (predicted_labels s)
         (_iou_threshold s) (_policy s) v (confusion_matrix s) (stdout s).

Definition set_confusion_matrix (v : option Matrix) (s : SimpleConfusionMatrix) :=
  mkSelf (print_summary s) (target_labels s) (predicted_labels s)
         (_iou_threshold s) (_policy s) (class_map s) v (stdout s).

Definition write_stdout (v : option Matrix) (s : SimpleConfusionMatrix) :=
  mkSelf (print_summary s) (target_labels s) (predicted_labels s)
         (_iou_threshold s) (_policy s) (class_map s) (confusion_matrix s)
         (stdout s ++ [v]).

(** *** State and exception monad over [self] *)

Definition M (A : Type) : Type :=
  SimpleConfusionMatrix -> SimpleConfusionMatrix * result A.

Definition ret {A} (a : A) : M A := fun s => (s, inr a).

Definition bind {A B} (c : M A) (k : A -> M B) : M B :=
  fun s =>
    match c s with
    | (s', inl e) => (s', inl e)
    | (s', inr a) => k a s'
    end.

Definition raise {A} (e : PyError) : M A := fun s => (s, inl e).

Definition lift {A} (r : result A) : M A := fun s => (s, r).

Definition get : M SimpleConfusionMatrix := fun s => (s, inr s).

Definition modify (f : SimpleConfusionMatrix -> SimpleConfusionMatrix) : M unit :=
  fun s => (f s, inr tt).

(** [assert b], as the interpreter runs it when not started with [-O] *)
Definition py_assert (b : bool) : M unit :=
  if b then ret tt else raise AssertionError.

Notation "x <- c ;; k" := (bind c (fun x => k))
  (at level 61, c at next level, right associativity).
Notation "c ;;; k" := (bind c (fun _ => k))
  (at level 61, right associativity).

(** *** __init__ and _reset *)

Definition __init__ (iou_threshold : Q) (policy : PyObject)
           (print_summary : bool) : SimpleConfusionMatrix :=
  mkSelf print_summary [] [] iou_threshold policy None None [].

Definition _reset : M unit :=
  modify (set_target_labels []) ;;;
  modify (set_predicted_labels []).

(** *** accumulate *)

(** The two helpers of [confusion_matrix_utils] that [accumulate] calls. *)
Variable match_records : BaseRecord -> BaseRecord -> Q -> result (list Match).
Variable get_best_score_item : list PredictionItem -> result PredictionItem.

Definition policy_error_message : string :=
  "policy must be one of "
    ++ repr_list (map MatchingPolicyEnum.repr MatchingPolicyEnum.members).

(** One turn of [for target_item, prediction_items in matches]: the
    choice of [predicted_item]. *)
Definition select_item (policy : PyObject) (prediction_items : list PredictionItem)
  : result PredictionItem :=
  if py_eq_member policy BEST_SCORE then
    get_best_score_item prediction_items
  else if py_eq_member policy BEST_IOU then
    throw NotImplementedError
  else
    throw (RuntimeError policy_error_message).

(** The loop over [matches]; it only touches the local lists
    [target_labels] and [predicted_labels]. *)
Fixpoint reduce_matches (policy : PyObject) (matches : list Match)
         (target_labels predicted_labels : list Z)
  : result (list Z * list Z) :=
  match matches with
  | [] => ok (target_labels, predicted_labels)
  | (target_item, prediction_items) :: rest =>
      rbind (select_item policy prediction_items) (fun predicted_item =>
        let target_label := target_label_id target_item in
        let predicted_label := predicted_label_id predicted_item in
        reduce_matches policy rest
                       (target_labels ++ [target_label])
                       (predicted_labels ++ [predicted_label]))
  end.

(** The body of [for pred in preds]. *)
Definition accumulate_pred (p : Prediction) : M unit :=
  let target_record := ground_truth p in
  let prediction_record := pred p in
  modify (set_class_map (Detection.class_map (detection target_record))) ;;;
  self <- get ;;
  matches <- lift (match_records target_record prediction_record
                                 (_iou_threshold self)) ;;
  lists <- lift (reduce_matches (_policy self) matches [] []) ;;
  let '(target_labels', predicted_labels') :=
    if ((len (Detection.labels (detection prediction_record)) >? 0)
        && (len (Detection.labels (detection target_record)) =? 0))%Z
    then (map (fun _ => 0) (Detection.labels (detection (pred p))),
          Detection.label_ids (detection (pred p)))
    else lists in
  py_assert (len predicted_labels' =? len target_labels')%Z ;;;
  modify (fun s => set_target_labels (target_labels s ++ target_labels') s) ;;;
  modify (fun s => set_predicted_labels (predicted_labels s ++ predicted_labels') s).

Fixpoint accumulate (preds : list Prediction) : M unit :=
  match preds with
  | [] => ret tt
  | p :: rest => accumulate_pred p ;;; accumulate rest
  end.

(** *** finalize *)

(** [sklearn.metrics.confusion_matrix(y_true, y_pred, labels)],
    [sklearn.metrics.precision_recall_fscore_support(y_true, y_pred,
    labels)], which answers [(precision, recall, fscore, support)]
    with one entry per label, and [np.round(x, decimals)]. *)
Variable sk_confusion_matrix : list Z -> list Z -> list Z -> result Matrix.
Variable sk_precision_recall_fscore_support :
  list Z -> list Z -> list Z ->
  result (list Float * list Float * list Float * list Z).
Variable np_round : Float -> Z -> Float.

(** [a[i]] for [i >= 0] on a one-dimensional array *)
Definition np_index (a : list Float) (i : nat) : result Float :=
  match nth_error a i with
  | Some x => ok x
  | None => throw (IndexError "index is out of bounds for axis 0")
  end.

(** A python dict with string keys, in insertion order. *)
Definition Dict (V : Type) : Type := list (string * V).

Definition finalize : M (Dict (list (Dict Float))) :=
  self <- get ;;
  py_assert (len (target_labels self) =? len (predicted_labels self))%Z ;;;
  cm <- match class_map self with
        | Some cm => ret cm
        | None =>
            raise (AttributeError
                     "'NoneType' object has no attribute '_class2id'")
        end ;;
  let label_ids := class2id_values cm in
  m <- lift (sk_confusion_matrix (target_labels self)
                                 (predicted_labels self) label_ids) ;;
  modify (set_confusion_matrix (Some m)) ;;;
  prfs <- lift (sk_precision_recall_fscore_support
                  (target_labels self) (predicted_labels self) label_ids) ;;
  let '(p, r, f1, _) := prfs in
  p1 <- lift (np_index p 1) ;;
  p2 <- lift (np_index p 2) ;;
  let p := [("Infra P", np_round p1 3); ("Vessel P", np_round p2 3)] in
  r1 <- lift (np_index r 1) ;;
  r2 <- lift (np_index r 2) ;;
  let r := [("Infra Recall", np_round r1 3); ("Vessel Recall", np_round r2 3)] in
  f1_1 <- lift (np_index f1 1) ;;
  f1_2 <- lift (np_index f1 2) ;;
  let f1 := [("Infra f1", np_round f1_1 3); ("Vessel f1", np_round f1_2 3)] in
  self <- get ;;
  (if print_summary self
   then modify (write_stdout (confusion_matrix self))
   else ret tt) ;;;
  _reset ;;;
  ret [("dummy_value_for_fastai", [p; r; f1])].

(** *** plot *)

(** The keyword arguments [plot] hands to
    [ConfusionMatrixDisplay.plot]. *)
Record DisplayPlotArgs : Type := mkDisplayPlotArgs {
  arg_xticks_rotation : string;
  arg_cmap : string;
  arg_values_format : option string;
  arg_display_args : Dict string
}.

(** numpy on the matrix (which is [None] before the first
    [finalize]): [cm / cm.sum(axis=1, keepdims=True)],
    [cm / cm.sum(axis=0, keepdims=True)], [cm / cm.sum()] and
    [np.nan_to_num(cm)]. *)
Variable np_div_sum_axis1 : option Matrix -> result (option Matrix).
Variable np_div_sum_axis0 : option Matrix -> result (option Matrix).
Variable np_div_sum : option Matrix -> result (option Matrix).
Variable np_nan_to_num : option Matrix -> result (option Matrix).

(** [ConfusionMatrixDisplay(cm, display_labels=...).plot(...)], and
    the cosmetic calls on the plot that end in [return figure]. *)
Variable cm_display_plot :
  option Matrix -> list string -> DisplayPlotArgs -> result Figure.
Variable style_figure : Figure -> Z -> Z -> result Figure.

Definition _maybe_normalize (cm : option Matrix) (normalize : option string)
  : result (option Matrix) :=
  rbind (match normalize with
         | Some n =>
             if (n =? "true")%string then np_div_sum_axis1 cm
             else if (n =? "pred")%string then np_div_sum_axis0 cm
             else if (n =? "all")%string then np_div_sum cm
             else ok cm
         | None => ok cm
         end)
        np_nan_to_num.

(** [normalize not in ["true", "pred", "all", None]] *)
Definition normalize_not_allowed (normalize : option string) : bool :=
  match normalize with
  | None => false
  | Some n =>
      negb ((n =? "true")%string || (n =? "pred")%string || (n =? "all")%string)
  end.

(** truth value of an [Optional[str]] *)
Definition truthy (o : option string) : bool :=
  match o with
  | None => false
  | Some s => negb (s =? EmptyString)%string
  end.

Definition plot (normalize : option string) (xticks_rotation : string)
           (values_format : option string) (values_size : Z)
           (cmap : string) (figsize : Z) (display_args : Dict string)
  : M Figure :=
  (if normalize_not_allowed normalize
   then raise (ValueError
                 "normalize must be one of {'true', 'pred', 'all', None}")
   else ret tt) ;;;
  let values_format :=
    match values_format with
    | Some _ => Some (if truthy normalize then ".2f" else "d")
    | None => None
    end in
  self <- get ;;
  cm <- lift (_maybe_normalize (confusion_matrix self) normalize) ;;
  labels_named <- match class_map self with
                  | Some c => ret (_id2class c)
                  | None =>
                      raise (AttributeError
                               "'NoneType' object has no attribute '_id2class'")
                  end ;;
  cm_display_plot' <- lift (cm_display_plot cm labels_named
                              (mkDisplayPlotArgs xticks_rotation cmap
                                                 values_format display_args)) ;;
  lift (style_figure cm_display_plot' values_size figsize).

End Metric.

Arguments mkSelf {Matrix}.
Arguments __init__ {Matrix}.
Arguments ret {Matrix A}.
Arguments raise {Matrix A}.
Arguments _reset {Matrix}.
Arguments accumulate_pred {Matrix}.
Arguments accumulate {Matrix}.
Arguments finalize {Matrix Float}.
Arguments plot {Matrix Figure}.

(** ** Sequences of calls on one accumulator

    A caller may catch an exception and go on using the object, so a
    call that raised still hands its state to the next one. *)

Section Lifecycle.

Variables Matrix Float : Type.
Variable match_records : BaseRecord -> BaseRecord -> Q -> result (list Match).
Variable get_best_score_item : list PredictionItem -> result PredictionItem.
Variable sk_confusion_matrix : list Z -> list Z -> list Z -> result Matrix.
Variable sk_precision_recall_fscore_support :
  list Z -> list Z -> list Z ->
  result (list Float * list Float * list Float * list Z).
Variable np_round : Float -> Z -> Float.

Inductive Call : Type :=
| CallAccumulate (preds : list Prediction)
| CallFinalize.

Definition call (c : Call) (s : SimpleConfusionMatrix Matrix)
  : SimpleConfusionMatrix Matrix :=
  match c with
  | CallAccumulate preds =>
      fst (accumulate match_records get_best_score_item preds s)
  | CallFinalize =>
      fst (finalize sk_confusion_matrix sk_precision_recall_fscore_support
                    np_round s)
  end.

Definition run (calls : list Call) (s : SimpleConfusionMatrix Matrix)
  : SimpleConfusionMatrix Matrix :=
  fold_left (fun s c => call c s) calls s.

End Lifecycle.

Arguments run {Matrix Float}.
Arguments call {Matrix Float}.

(** ** confusion_matrix_utils

    [from icevision.metrics.confusion_matrix.confusion_matrix_utils
    import *] brings in [match_records] and [get_best_score_item]; the
    module itself is not among the sources. *)

Module confusion_matrix_utils.

Definition Qlt_bool (a b : Q) : bool := negb (Qle_bool b a).

Section Matcher.

(** The overlap ratio of a ground-truth box and a predicted box. *)
Variable iou : BBox -> BBox -> Q.

Definition target_items (target : BaseRecord) : list TargetItem :=
  map (fun '(b, l) => mkTargetItem b l)
      (combine (Detection.bboxes (detection target))
               (Detection.label_ids (detection target))).

Definition prediction_items (target_box : BBox) (prediction : BaseRecord)
  : list PredictionItem :=
  map (fun '(b, l, s) => mkPredictionItem b l s (iou target_box b))
      (combine (combine (Detection.bboxes (detection prediction))
                        (Detection.label_ids (detection prediction)))
               (Detection.scores (detection prediction))).

(** Modelled from the spec: [match_records], whose definition is
    missing.  Spec 4.1: one Match entry per ground-truth box, each
    carrying the ground-truth label id and the list of candidate
    prediction items (label id, score, IoU) whose IoU with that
    ground-truth box is at least the threshold; a box with no
    qualifying candidate yields an empty candidate list. *)
Definition match_records (target prediction : BaseRecord) (iou_threshold : Q)
  : list Match :=
  map (fun t =>
         (t, filter (fun item => Qle_bool iou_threshold (iou_score item))
                    (prediction_items (target_bbox t) prediction)))
      (target_items target).

End Matcher.

(** The running best of a left-to-right scan: a later item replaces
    it only with a strictly higher score. *)
Fixpoint best_score_from (best : PredictionItem) (rest : list PredictionItem)
  : PredictionItem :=
  match rest with
  | [] => best
  | x :: rest' =>
      if Qlt_bool (score best) (score x)
      then best_score_from x rest'
      else best_score_from best rest'
  end.

(** Modelled from the spec: [get_best_score_item], whose definition
    is missing.  Spec 4.2: among a Match's candidate predictions,
    choose the one with the highest confidence score; ties broken by
    first-seen order.  The spec does not say what is answered for an
    empty candidate list: [None] here. *)
Definition get_best_score_item (prediction_items : list PredictionItem)
  : option PredictionItem :=
  match prediction_items with
  | [] => None
  | x :: rest => Some (best_score_from x rest)
  end.

(** The helpers as [accumulate] calls them.  An empty candidate list
    is turned into an exception of the helper. *)
Definition match_records_call (iou : BBox -> BBox -> Q)
           (target prediction : BaseRecord) (iou_threshold : Q)
  : result (list Match) :=
  ok (match_records iou target prediction iou_threshold).

Definition get_best_score_item_call (prediction_items : list PredictionItem)
  : result PredictionItem :=
  match get_best_score_item prediction_items with
  | Some item => ok item
  | None => throw (Raised "get_best_score_item: no prediction item")
  end.

End confusion_matrix_utils.

(** ** Stand-ins for the external collaborators

    Executable versions of what the metric receives from outside, on
    rationals, used to run the model on concrete inputs. *)

Module reference.

Local Open Scope Q_scope.

Definition Qmax (a b : Q) : Q := if Qle_bool a b then b else a.
Definition Qmin (a b : Q) : Q := if Qle_bool a b then a else b.

Definition area (b : BBox) : Q :=
  (xmax b - xmin b) * (ymax b - ymin b).

Definition intersection (a b : BBox) : Q :=
  let w := Qmax 0 (Qmin (xmax a) (xmax b) - Qmax (xmin a) (xmin b)) in
  let h := Qmax 0 (Qmin (ymax a) (ymax b) - Qmax (ymin a) (ymin b)) in
  w * h.

(** Modelled from the spec: the glossary's IoU, the overlap ratio
    between two bounding boxes (intersection area over union area). *)
Definition iou (a b : BBox) : Q :=
  let i := intersection a b in
  let u := area a + area b - i in
  if Qle_bool u 0 then 0 else Qred (i / u).

Local Open Scope Z_scope.

Definition count {A} (f : A -> bool) (l : list A) : Z :=
  Z.of_nat (List.length (filter f l)).

Definition ratio (n d : Z) : Q :=
  if d =? 0 then 0%Q else Qred (n # Z.to_pos d).

(** Modelled from the spec: the statistics engine of spec 4.3 and 6,
    which takes two equal-length integer sequences and an ordered
    label-id list and answers a square matrix sized to the label list
    and per-label precision, recall and F1 vectors in the same
    order. *)
Definition confusion_matrix (y_true y_pred labels : list Z)
  : result (list (list Z)) :=
  if negb (len y_true =? len y_pred) then
    throw (ValueError "inconsistent numbers of samples")
  else
    ok (map (fun t =>
               map (fun p =>
                      count (fun '(a, b) => (a =? t) && (b =? p))
                            (combine y_true y_pred))
                   labels)
            labels).

Definition true_positives (y_true y_pred : list Z) (c : Z) : Z :=
  count (fun '(a, b) => (a =? c) && (b =? c)) (combine y_true y_pred).

Definition precision (y_true y_pred : list Z) (c : Z) : Q :=
  ratio (true_positives y_true y_pred c) (count (Z.eqb c) y_pred).

Definition recall (y_true y_pred : list Z) (c : Z) : Q :=
  ratio (true_positives y_true y_pred c) (count (Z.eqb c) y_true).

Definition fscore (y_true y_pred : list Z) (c : Z) : Q :=
  let p := precision y_true y_pred c in
  let r := recall y_true y_pred c in
  if Qle_bool (p + r) 0 then 0%Q else Qred (2 * p * r / (p + r))%Q.

Definition precision_recall_fscore_support (y_true y_pred labels : list Z)
  : result (list Q * list Q * list Q * list Z) :=
  if negb (len y_true =? len y_pred) then
    throw (ValueError "inconsistent numbers of samples")
  else
    ok (map (precision y_true y_pred) labels,
        map (recall y_true y_pred) labels,
        map (fscore y_true y_pred) labels,
        map (fun c => count (Z.eqb c) y_true) labels).

(** Rounding to [decimals] digits, halves to the even neighbour. *)
Definition round (x : Q) (decimals : Z) : Q :=
  let scale := inject_Z (10 ^ decimals) in
  let scaled := (x * scale)%Q in
  let lo := Qfloor scaled in
  let twice := Qfloor (2 * (scaled - inject_Z lo))%Q in
  let exact := Qle_bool (2 * (scaled - inject_Z lo))%Q 1 in
  let n := if twice =? 0 then lo
           else if exact && Z.even lo then lo
           else lo + 1 in
  Qred (inject_Z n / scale)%Q.

End reference.

(** ** Sample inputs *)

Module sample.

Local Open Scope Q_scope.

Definition classes : ClassMap :=
  mkClassMap ["background"; "Infra"; "Vessel"; "Boat"; "Buoy"; "Pier"]
             [("background", 0%Z); ("Infra", 1%Z); ("Vessel", 2%Z);
              ("Boat", 3%Z); ("Buoy", 4%Z); ("Pier", 5%Z)].

Definition box (x0 y0 x1 y1 : Z) : BBox :=
  mkBBox (inject_Z x0) (inject_Z y0) (inject_Z x1) (inject_Z y1).

(** An image without ground truth on which three boxes are predicted. *)
Definition empty_truth : BaseRecord :=
  mkRecord (Detection.mk (Some classes) [] [] [] []).

Definition three_boxes : BaseRecord :=
  mkRecord (Detection.mk (Some classes)
              [box 0 0 4 4; box 10 10 14 14; box 20 20 24 24]
              ["Boat"; "Pier"; "Vessel"] [3%Z; 5%Z; 2%Z]
              [9 # 10; 8 # 10; 7 # 10]).

Definition false_positives : Prediction :=
  mkPrediction empty_truth three_boxes.

(** An image with one Infra box and one Vessel box; the first is hit
    by two predictions of equal score, the second by one. *)
Definition two_truths : BaseRecord :=
  mkRecord (Detection.mk (Some classes)
              [box 0 0 4 4; box 10 10 14 14]
              ["Infra"; "Vessel"] [1%Z; 2%Z] []).

Definition three_hits : BaseRecord :=
  mkRecord (Detection.mk (Some classes)
              [box 0 0 4 4; box 0 0 4 2; box 10 10 14 14]
              ["Infra"; "Vessel"; "Vessel"] [1%Z; 2%Z; 2%Z]
              [8 # 10; 8 # 10; 6 # 10]).

Definition matched : Prediction :=
  mkPrediction two_truths three_hits.

(** A record whose name list is shorter than its id list. *)
Definition ragged : BaseRecord :=
  mkRecord (Detection.mk (Some classes)
              [box 0 0 4 4; box 10 10 14 14]
              ["Boat"] [3%Z; 5%Z] [9 # 10; 8 # 10]).

Definition ragged_false_positives : Prediction :=
  mkPrediction empty_truth ragged.

(** A ground truth that was filled in without a class map: one box
    with its id, and no class name. *)
Definition unnamed_truth : BaseRecord :=
  mkRecord (Detection.mk None [box 0 0 4 4] [] [1%Z] []).

Definition unnamed_against_three : Prediction :=
  mkPrediction unnamed_truth three_boxes.

Definition Matrix : Type := list (list Z).

Definition fresh (policy : PyObject) : SimpleConfusionMatrix Matrix :=
  __init__ (1 # 2) policy false.

Definition accumulate (preds : list Prediction)
  : M Matrix unit :=
  accumulate (confusion_matrix_utils.match_records_call reference.iou)
             confusion_matrix_utils.get_best_score_item_call preds.

Definition finalize : M Matrix (Dict (list (Dict Q))) :=
  finalize reference.confusion_matrix
           reference.precision_recall_fscore_support reference.round.

End sample.

(** ** Notions used in the statements *)

(** The two label sequences of the accumulator have the same length. *)
Definition aligned {Matrix} (s : SimpleConfusionMatrix Matrix) : Prop :=
  List.length (target_labels _ s) = List.length (predicted_labels _ s).

(** The state after the first statement of the loop body of
    [accumulate]. *)
Definition with_class_map_of {Matrix} (p : Prediction)
           (s : SimpleConfusionMatrix Matrix) : SimpleConfusionMatrix Matrix :=
  set_class_map Matrix (Detection.class_map (detection (ground_truth p))) s.

(** The state after its last statement, when the image contributed the
    lists [tl] and [pl]. *)
Definition extended {Matrix} (p : Prediction) (tl pl : list Z)
           (s : SimpleConfusionMatrix Matrix) : SimpleConfusionMatrix Matrix :=
  mkSelf (print_summary _ s) (target_labels _ s ++ tl)
         (predicted_labels _ s ++ pl) (_iou_threshold _ s) (_policy _ s)
         (Detection.class_map (detection (ground_truth p)))
         (confusion_matrix _ s) (stdout _ s).

(** The test of the false-positive branch. *)
Definition only_false_positives (p : Prediction) : bool :=
  ((len (Detection.labels (detection (pred p))) >? 0)
   && (len (Detection.labels (detection (ground_truth p))) =? 0))%Z.

(** The state a [finalize] that returns leaves behind, when the
    statistics engine answered the matrix [m]. *)
Definition finalized {Matrix} (m : Matrix) (s : SimpleConfusionMatrix Matrix)
  : SimpleConfusionMatrix Matrix :=
  mkSelf (print_summary _ s) [] [] (_iou_threshold _ s) (_policy _ s)
         (class_map _ s) (Some m)
         (if print_summary _ s then stdout _ s ++ [Some m] else stdout _ s).

(** What [finalize] raises when no class map was recorded. *)
Definition no_class_map : PyError :=
  AttributeError "'NoneType' object has no attribute '_class2id'".

(** [needle in haystack] on strings *)
Definition contains (needle haystack : string) : bool :=
  match String.index 0 needle haystack with
  | Some _ => true
  | None => false
  end.

(** The entry of a per-label vector that belongs to class id [c], for a
    vector laid out in the order of [label_ids]. *)
Fixpoint entry_of_class {A} (label_ids : list Z) (v : list A) (c : Z)
  : option A :=
  match label_ids, v with
  | l :: label_ids', x :: v' =>
      if (l =? c)%Z then Some x else entry_of_class label_ids' v' c
  | _, _ => None
  end.

Section FinalizeOutcome.

Variables Matrix Float : Type.
Variable sk_confusion_matrix : list Z -> list Z -> list Z -> result Matrix.
Variable sk_precision_recall_fscore_support :
  list Z -> list Z -> list Z ->
  result (list Float * list Float * list Float * list Z).
Variable np_round : Float -> Z -> Float.

(** The three dicts [finalize] builds out of the per-label vectors. *)
Definition infra_vessel (prfs : list Float * list Float * list Float * list Z)
  : result (list (Dict Float)) :=
  let '(p, r, f1, _) := prfs in
  rbind (np_index Float p 1) (fun p1 =>
  rbind (np_index Float p 2) (fun p2 =>
  rbind (np_index Float r 1) (fun r1 =>
  rbind (np_index Float r 2) (fun r2 =>
  rbind (np_index Float f1 1) (fun f1_1 =>
  rbind (np_index Float f1 2) (fun f1_2 =>
    ok [ [("Infra P", np_round p1 3); ("Vessel P", np_round p2 3)];
         [("Infra Recall", np_round r1 3); ("Vessel Recall", np_round r2 3)];
         [("Infra f1", np_round f1_1 3); ("Vessel f1", np_round f1_2 3)] ]
  )))))).

(** What a [finalize] that gets past its first two lines stores in
    [self.confusion_matrix] and returns, as a function of the label
    sequences and of the label list. *)
Definition finalize_outcome (y_true y_pred label_ids : list Z)
  : result (Matrix * Dict (list (Dict Float))) :=
  rbind (sk_confusion_matrix y_true y_pred label_ids) (fun m =>
  rbind (sk_precision_recall_fscore_support y_true y_pred label_ids)
        (fun prfs =>
  rbind (infra_vessel prfs) (fun dicts =>
    ok (m, [("dummy_value_for_fastai", dicts)])))).

End FinalizeOutcome.

Arguments infra_vessel {Float}.
Arguments finalize_outcome {Matrix Float}.

(** Collaborators for [plot] that hand back the keyword arguments they
    were called with, so that a run of [plot] shows them. *)
Module spy.

Definition numpy (cm : option sample.Matrix) : result (option sample.Matrix) :=
  ok cm.

Definition cm_display_plot (cm : option sample.Matrix)
           (display_labels : list string) (args : DisplayPlotArgs)
  : result DisplayPlotArgs :=
  ok args.

Definition style_figure (figure : DisplayPlotArgs) (values_size figsize : Z)
  : result DisplayPlotArgs :=
  ok figure.

Definition plot (normalize : option string) (values_format : option string)
  : M sample.Matrix DisplayPlotArgs :=
  plot numpy numpy numpy numpy cm_display_plot style_figure
       normalize "vertical" values_format 12 "PuBu" 11 [].

End spy.

(** * Properties *)

Section AccumulateProperties.

Variable Matrix : Type.
Variable match_records : BaseRecord -> BaseRecord -> Q -> result (list Match).
Variable get_best_score_item : list PredictionItem -> result PredictionItem.

Abbreviation Self := (SimpleConfusionMatrix Matrix).
Abbreviation accumulate_pred' :=
  (accumulate_pred match_records get_best_score_item).
Abbreviation accumulate' := (accumulate match_records get_best_score_item).
Abbreviation reduce_matches' := (reduce_matches get_best_score_item).
Abbreviation select_item' := (select_item get_best_score_item).

Lemma len_eqb_length {A B} (l : list A) (l' : list B) :
  (len l =? len l')%Z = Nat.eqb (List.length l) (List.length l').
Proof.
  unfold len.
  destruct (Nat.eqb_spec (List.length l) (List.length l')) as [E | E].
  - rewrite E. apply Z.eqb_refl.
  - apply Z.eqb_neq. lia.
Qed.

(** The loop body, one outcome at a time. *)
Lemma accumulate_pred_unfold (p : Prediction) (s : Self) :
  accumulate_pred' p s =
  match match_records (ground_truth p) (pred p) (_iou_threshold _ s) with
  | inl e => (with_class_map_of p s, inl e)
  | inr matches =>
      match reduce_matches' (_policy _ s) matches [] [] with
      | inl e => (with_class_map_of p s, inl e)
      | inr lists =>
          let '(tl, pl) :=
            if only_false_positives p
            then (map (fun _ => 0%Z) (Detection.labels (detection (pred p))),
                  Detection.label_ids (detection (pred p)))
            else lists in
          if Nat.eqb (List.length pl) (List.length tl)
          then (extended p tl pl s, inr tt)
          else (with_class_map_of p s, inl AssertionError)
      end
  end.
Proof.
  unfold accumulate_pred', accumulate_pred, bind, modify, get, lift.
  cbn [_iou_threshold _policy set_class_map].
  destruct (match_records _ _ _) as [e | matches]; [reflexivity |].
  destruct (reduce_matches' _ matches [] []) as [e | lists]; [reflexivity |].
  fold (only_false_positives p).
  destruct (if only_false_positives p then _ else lists) as [tl pl].
  unfold py_assert. rewrite len_eqb_length.
  destruct (Nat.eqb _ _); reflexivity.
Qed.

Lemma reduce_matches_aligned (policy : PyObject) (matches : list Match) :
  forall tl pl tl' pl',
    reduce_matches' policy matches tl pl = inr (tl', pl') ->
    List.length tl = List.length pl ->
    List.length tl' = List.length pl'.
Proof.
  induction matches as [| [target_item prediction_items] rest IH];
    intros tl pl tl' pl' Hrun Hlen; cbn in Hrun.
  - injection Hrun as <- <-. exact Hlen.
  - destruct (select_item' policy prediction_items) as [e | item];
      cbn in Hrun; [discriminate |].
    apply IH in Hrun; [exact Hrun |].
    rewrite !length_app. cbn. lia.
Qed.

Lemma accumulate_pred_aligned (p : Prediction) (s : Self) :
  aligned s -> aligned (fst (accumulate_pred' p s)).
Proof.
  intros Hs. rewrite accumulate_pred_unfold.
  destruct (match_records _ _ _) as [e | matches]; [exact Hs |].
  destruct (reduce_matches' _ matches [] []) as [e | lists]; [exact Hs |].
  destruct (if only_false_positives p then _ else lists) as [tl pl].
  destruct (Nat.eqb_spec (List.length pl) (List.length tl)) as [E | E];
    [| exact Hs].
  unfold aligned in *. cbn. rewrite !length_app. lia.
Qed.

Lemma accumulate_aligned (preds : list Prediction) :
  forall s : Self, aligned s -> aligned (fst (accumulate' preds s)).
Proof.
  induction preds as [| p rest IH]; intros s Hs; [exact Hs |].
  cbn [accumulate]. unfold bind.
  pose proof (accumulate_pred_aligned p s Hs) as Hp.
  destruct (accumulate_pred' p s) as [s1 [e | []]]; cbn in Hp.
  - exact Hp.
  - apply IH. exact Hp.
Qed.

(** Processing [done ++ rest] is processing [done], then [rest]. *)
Lemma accumulate_app (done rest : list Prediction) :
  forall s s1 : Self,
    accumulate' done s = (s1, inr tt) ->
    accumulate' (done ++ rest) s = accumulate' rest s1.
Proof.
  induction done as [| p done IH]; intros s s1 Hdone; cbn in *.
  - unfold ret in Hdone. injection Hdone as <-. reflexivity.
  - unfold bind in *.
    destruct (accumulate_pred' p s) as [s0 [e | []]]; [discriminate |].
    apply IH. exact Hdone.
Qed.

(** [accumulate] never touches the configuration of the object. *)
Lemma accumulate_pred_config (p : Prediction) (s : Self) :
  _policy _ (fst (accumulate_pred' p s)) = _policy _ s /\
  _iou_threshold _ (fst (accumulate_pred' p s)) = _iou_threshold _ s.
Proof.
  rewrite accumulate_pred_unfold.
  destruct (match_records _ _ _) as [e | matches]; [split; reflexivity |].
  destruct (reduce_matches' _ matches [] []) as [e | lists];
    [split; reflexivity |].
  destruct (if only_false_positives p then _ else lists) as [tl pl].
  destruct (Nat.eqb _ _); split; reflexivity.
Qed.

Lemma accumulate_config (preds : list Prediction) :
  forall s : Self,
    _policy _ (fst (accumulate' preds s)) = _policy _ s /\
    _iou_threshold _ (fst (accumulate' preds s)) = _iou_threshold _ s.
Proof.
  induction preds as [| p rest IH]; intros s; [split; reflexivity |].
  cbn [accumulate]. unfold bind.
  pose proof (accumulate_pred_config p s) as [Hp Ht].
  destruct (accumulate_pred' p s) as [s1 [e | []]]; cbn in Hp, Ht.
  - split; assumption.
  - destruct (IH s1) as [Hp' Ht']. split; congruence.
Qed.

(** An image whose matcher answer is not empty stops [accumulate] with
    whatever the first selection raises. *)
Lemma accumulate_pred_first_selection_raises
      (p : Prediction) (s : Self) (m : Match) (ms : list Match) (e : PyError) :
  match_records (ground_truth p) (pred p) (_iou_threshold _ s) = inr (m :: ms) ->
  select_item' (_policy _ s) (snd m) = inl e ->
  accumulate_pred' p s = (with_class_map_of p s, inl e).
Proof.
  intros Hm Hsel. rewrite accumulate_pred_unfold, Hm.
  destruct m as [target_item prediction_items]. cbn in Hsel |- *.
  rewrite Hsel. reflexivity.
Qed.

Lemma accumulate_stops_at (done rest : list Prediction) (p : Prediction)
      (s s1 : Self) (e : PyError) :
  accumulate' done s = (s1, inr tt) ->
  accumulate_pred' p s1 = (with_class_map_of p s1, inl e) ->
  accumulate' (done ++ p :: rest) s = (with_class_map_of p s1, inl e).
Proof.
  intros Hdone Hp. rewrite (accumulate_app _ _ _ _ Hdone).
  cbn [accumulate]. unfold bind. rewrite Hp. reflexivity.
Qed.

(** With a policy under which every selection raises, an [accumulate]
    that returns has met no Match entry at all. *)
Lemma accumulate_returns_without_matches (preds : list Prediction) :
  forall s s' : Self,
    (forall items, exists e, select_item' (_policy _ s) items = inl e) ->
    accumulate' preds s = (s', inr tt) ->
    forall p, In p preds ->
      match_records (ground_truth p) (pred p) (_iou_threshold _ s) = inr [].
Proof.
  induction preds as [| q rest IH]; intros s s' Hraise Hrun p Hin;
    [destruct Hin |].
  cbn [accumulate] in Hrun. unfold bind in Hrun.
  pose proof (accumulate_pred_config q s) as [Hpol Htau].
  pose proof (accumulate_pred_unfold q s) as Hq.
  destruct (accumulate_pred' q s) as [s1 [e | []]]; [discriminate |].
  cbn in Hpol, Htau.
  assert (Hempty : match_records (ground_truth q) (pred q) (_iou_threshold _ s)
                   = inr []).
  { destruct (match_records (ground_truth q) (pred q) (_iou_threshold _ s))
      as [e | [| [target_item prediction_items] ms]];
      [discriminate | reflexivity |].
    cbn in Hq. destruct (Hraise prediction_items) as [e He].
    rewrite He in Hq. discriminate. }
  destruct Hin as [<- | Hin]; [exact Hempty |].
  rewrite <- Htau. apply (IH s1 s'); try assumption.
  rewrite Hpol. exact Hraise.
Qed.

(** C2: an image whose ground truth has no label and whose prediction
    has N > 0 labels adds N times the background id 0 to
    [target_labels] and the predicted label ids, in order, to
    [predicted_labels], whatever pairs the matcher and the selector had
    computed for that image. *)
Theorem accumulate_false_positives_only
        (p : Prediction) (rest : list Prediction) (s : Self)
        (matches : list Match) (lists : list Z * list Z) :
  Detection.labels (detection (ground_truth p)) = [] ->
  Detection.labels (detection (pred p)) <> [] ->
  List.length (Detection.label_ids (detection (pred p)))
  = List.length (Detection.labels (detection (pred p))) ->
  match_records (ground_truth p) (pred p) (_iou_threshold _ s) = inr matches ->
  reduce_matches' (_policy _ s) matches [] [] = inr lists ->
  accumulate' (p :: rest) s =
  accumulate' rest
    (mkSelf (print_summary _ s)
            (target_labels _ s
               ++ repeat 0%Z (List.length (Detection.labels (detection (pred p)))))
            (predicted_labels _ s ++ Detection.label_ids (detection (pred p)))
            (_iou_threshold _ s) (_policy _ s)
            (Detection.class_map (detection (ground_truth p)))
            (confusion_matrix _ s) (stdout _ s)).
Proof.
  intros Hgt Hpr Hlen Hm Hred.
  cbn [accumulate]. unfold bind.
  rewrite accumulate_pred_unfold, Hm, Hred.
  assert (Hfp : only_false_positives p = true).
  { unfold only_false_positives. rewrite Hgt.
    destruct (Detection.labels (detection (pred p))); [contradiction |].
    reflexivity. }
  rewrite Hfp. rewrite length_map, Hlen, Nat.eqb_refl.
  unfold extended. rewrite map_const. reflexivity.
Qed.

(** C3: under the BEST_IOU policy [accumulate] raises
    NotImplementedError at the first image for which the matcher
    answers a Match entry, whatever the selector is; and an
    [accumulate] that returns under this policy has reduced no Match. *)
Theorem best_iou_not_implemented (s : Self) :
  _policy _ s = PyEnum BEST_IOU ->
  (forall (done rest : list Prediction) (p : Prediction) (s1 : Self)
          (m : Match) (ms : list Match),
      accumulate' done s = (s1, inr tt) ->
      match_records (ground_truth p) (pred p) (_iou_threshold _ s)
      = inr (m :: ms) ->
      accumulate' (done ++ p :: rest) s
      = (with_class_map_of p s1, inl NotImplementedError))
  /\
  (forall (preds : list Prediction) (s' : Self),
      accumulate' preds s = (s', inr tt) ->
      forall p, In p preds ->
        match_records (ground_truth p) (pred p) (_iou_threshold _ s) = inr []).
Proof.
  intros Hpol.
  assert (Hsel : forall (s1 : Self) items,
             _policy _ s1 = PyEnum BEST_IOU ->
             select_item' (_policy _ s1) items = inl NotImplementedError).
  { intros s1 items ->. reflexivity. }
  split.
  - intros done rest p s1 m ms Hdone Hm.
    pose proof (accumulate_config done s) as [Hp1 Ht1].
    rewrite Hdone in Hp1, Ht1. cbn in Hp1, Ht1.
    apply accumulate_stops_at; [exact Hdone |].
    apply (accumulate_pred_first_selection_raises p s1 m ms).
    + rewrite Ht1. exact Hm.
    + apply Hsel. congruence.
  - intros preds s' Hrun.
    apply (accumulate_returns_without_matches preds s s'); [| exact Hrun].
    intros items. exists NotImplementedError. apply Hsel, Hpol.
Qed.

(** C4: when [self._policy] is neither BEST_SCORE nor BEST_IOU,
    [accumulate] raises a RuntimeError at the first image for which
    the matcher answers a Match entry, and the message of the error
    lists the members of MatchingPolicy. *)
Theorem unknown_policy_runtime_error (s : Self) :
  (forall m : MatchingPolicy, _policy _ s <> PyEnum m) ->
  (forall (done rest : list Prediction) (p : Prediction) (s1 : Self)
          (m : Match) (ms : list Match),
      accumulate' done s = (s1, inr tt) ->
      match_records (ground_truth p) (pred p) (_iou_threshold _ s)
      = inr (m :: ms) ->
      accumulate' (done ++ p :: rest) s
      = (with_class_map_of p s1, inl (RuntimeError policy_error_message)))
  /\
  policy_error_message
  = "policy must be one of [<MatchingPolicy.BEST_SCORE: 1>, <MatchingPolicy.BEST_IOU: 2>]"
  /\
  (forall m : MatchingPolicy,
      In m MatchingPolicyEnum.members /\
      contains (MatchingPolicyEnum.name m) policy_error_message = true).
Proof.
  intros Hpol.
  assert (Hsel : forall (s1 : Self) items,
             _policy _ s1 = _policy _ s ->
             select_item' (_policy _ s1) items
             = inl (RuntimeError policy_error_message)).
  { intros s1 items ->. unfold select_item', select_item.
    destruct (_policy _ s) as [[|] | | |];
      try reflexivity; exfalso; eapply Hpol; reflexivity. }
  split; [| split].
  - intros done rest p s1 m ms Hdone Hm.
    pose proof (accumulate_config done s) as [Hp1 Ht1].
    rewrite Hdone in Hp1, Ht1. cbn in Hp1, Ht1.
    apply accumulate_stops_at; [exact Hdone |].
    apply (accumulate_pred_first_selection_raises p s1 m ms).
    + rewrite Ht1. exact Hm.
    + apply Hsel. exact Hp1.
  - reflexivity.
  - intros [|]; split; cbn; auto.
Qed.

End AccumulateProperties.

Section LifecycleProperties.

Variables Matrix Float : Type.
Variable match_records : BaseRecord -> BaseRecord -> Q -> result (list Match).
Variable get_best_score_item : list PredictionItem -> result PredictionItem.
Variable sk_confusion_matrix : list Z -> list Z -> list Z -> result Matrix.
Variable sk_precision_recall_fscore_support :
  list Z -> list Z -> list Z ->
  result (list Float * list Float * list Float * list Z).
Variable np_round : Float -> Z -> Float.

Abbreviation Self := (SimpleConfusionMatrix Matrix).
Abbreviation accumulate' := (accumulate match_records get_best_score_item).
Abbreviation reduce_matches' := (reduce_matches get_best_score_item).
Abbreviation finalize' :=
  (finalize sk_confusion_matrix sk_precision_recall_fscore_support np_round).
Abbreviation finalize_outcome' :=
  (finalize_outcome sk_confusion_matrix sk_precision_recall_fscore_support
                    np_round).
Abbreviation run' :=
  (run match_records get_best_score_item sk_confusion_matrix
       sk_precision_recall_fscore_support np_round).

(** [finalize], one outcome at a time. *)
Lemma finalize_unfold (s : Self) :
  finalize' s =
  if Nat.eqb (List.length (target_labels _ s))
             (List.length (predicted_labels _ s)) then
    match class_map _ s with
    | None => (s, inl no_class_map)
    | Some cm =>
        let label_ids := class2id_values cm in
        match sk_confusion_matrix (target_labels _ s) (predicted_labels _ s)
                                  label_ids with
        | inl e => (s, inl e)
        | inr m =>
            match sk_precision_recall_fscore_support
                    (target_labels _ s) (predicted_labels _ s) label_ids with
            | inl e => (set_confusion_matrix _ (Some m) s, inl e)
            | inr prfs =>
                match infra_vessel np_round prfs with
                | inl e => (set_confusion_matrix _ (Some m) s, inl e)
                | inr dicts =>
                    (finalized m s, inr [("dummy_value_for_fastai", dicts)])
                end
            end
        end
    end
  else (s, inl AssertionError).
Proof.
  unfold finalize, bind, get, lift, modify, py_assert, raise, ret.
  rewrite len_eqb_length.
  destruct (Nat.eqb _ _); [| reflexivity].
  destruct (class_map _ s) as [cm |]; [| reflexivity].
  cbn zeta.
  destruct (sk_confusion_matrix _ _ _) as [e | m]; [reflexivity |].
  destruct (sk_precision_recall_fscore_support _ _ _)
    as [e | [[[p r] f1] sup]]; [reflexivity |].
  unfold infra_vessel, rbind, np_index.
  destruct (nth_error p 1); [| reflexivity].
  destruct (nth_error p 2); [| reflexivity].
  destruct (nth_error r 1); [| reflexivity].
  destruct (nth_error r 2); [| reflexivity].
  destruct (nth_error f1 1); [| reflexivity].
  destruct (nth_error f1 2); [| reflexivity].
  unfold finalized, _reset, bind, modify.
  destruct s as [summary tl pl tau policy c old out].
  destruct summary; reflexivity.
Qed.

(** In terms of [finalize_outcome]. *)
Lemma finalize_of_outcome (s : Self) (cm : ClassMap) :
  aligned s ->
  class_map _ s = Some cm ->
  snd (finalize' s) =
  match finalize_outcome' (target_labels _ s) (predicted_labels _ s)
                          (class2id_values cm) with
  | inl e => inl e
  | inr (_, d) => inr d
  end
  /\
  forall m d,
    finalize_outcome' (target_labels _ s) (predicted_labels _ s)
                      (class2id_values cm) = inr (m, d) ->
    finalize' s = (finalized m s, inr d).
Proof.
  intros Hal Hcm. rewrite finalize_unfold. unfold aligned in Hal.
  rewrite Hal, Nat.eqb_refl, Hcm. unfold finalize_outcome, rbind. cbn zeta.
  destruct (sk_confusion_matrix _ _ _) as [e | m];
    [split; [reflexivity | discriminate] |].
  destruct (sk_precision_recall_fscore_support _ _ _) as [e | prfs];
    [split; [reflexivity | discriminate] |].
  destruct (infra_vessel np_round prfs) as [e | dicts];
    [split; [reflexivity | discriminate] |].
  split; [reflexivity |].
  intros m' d' H. injection H as <- <-. reflexivity.
Qed.

Lemma finalize_aligned (s : Self) :
  aligned s -> aligned (fst (finalize' s)).
Proof.
  intros Hs. rewrite finalize_unfold.
  destruct (Nat.eqb _ _); [| exact Hs].
  destruct (class_map _ s) as [cm |]; [| exact Hs].
  cbn zeta.
  destruct (sk_confusion_matrix _ _ _) as [e | m]; [exact Hs |].
  destruct (sk_precision_recall_fscore_support _ _ _) as [e | prfs];
    [exact Hs |].
  destruct (infra_vessel np_round prfs) as [e | dicts]; [exact Hs |].
  reflexivity.
Qed.

Lemma run_aligned (calls : list Call) :
  forall s : Self, aligned s -> aligned (run' calls s).
Proof.
  induction calls as [| c calls IH]; intros s Hs; [exact Hs |].
  cbn. apply IH. destruct c as [preds |]; cbn.
  - apply accumulate_aligned. exact Hs.
  - apply finalize_aligned. exact Hs.
Qed.

Lemma entry_of_class_at_1 {A} (ids : list Z) (v : list A) (x : A) :
  firstn 3 ids = [0; 1; 2]%Z ->
  nth_error v 1 = Some x ->
  entry_of_class ids v 1 = Some x.
Proof.
  intros Hids Hv.
  destruct ids as [| i0 [| i1 [| i2 ids]]]; try discriminate.
  injection Hids as -> -> ->.
  destruct v as [| x0 [| x1 v]]; try discriminate.
  injection Hv as ->. reflexivity.
Qed.

Lemma entry_of_class_at_2 {A} (ids : list Z) (v : list A) (x : A) :
  firstn 3 ids = [0; 1; 2]%Z ->
  nth_error v 2 = Some x ->
  entry_of_class ids v 2 = Some x.
Proof.
  intros Hids Hv.
  destruct ids as [| i0 [| i1 [| i2 ids]]]; try discriminate.
  injection Hids as -> -> ->.
  destruct v as [| x0 [| x1 [| x2 v]]]; try discriminate.
  injection Hv as ->. reflexivity.
Qed.

(** C1: the two label sequences have the same length after every
    image [accumulate] processes and after every sequence of calls; an
    image whose two lists differ in length makes [accumulate] raise
    AssertionError, leaving the sequences as they were. *)
Theorem label_sequences_stay_aligned (s : Self) :
  aligned s ->
  (forall calls : list Call, aligned (run' calls s))
  /\
  (forall done rest : list Prediction,
      aligned (fst (accumulate' done s)) /\
      (forall s1, accumulate' done s = (s1, inr tt) ->
                  accumulate' (done ++ rest) s = accumulate' rest s1))
  /\
  (forall (p : Prediction) (rest : list Prediction)
          (matches : list Match) (lists : list Z * list Z),
      Detection.labels (detection (ground_truth p)) = [] ->
      Detection.labels (detection (pred p)) <> [] ->
      List.length (Detection.label_ids (detection (pred p)))
      <> List.length (Detection.labels (detection (pred p))) ->
      match_records (ground_truth p) (pred p) (_iou_threshold _ s)
      = inr matches ->
      reduce_matches' (_policy _ s) matches [] [] = inr lists ->
      accumulate' (p :: rest) s = (with_class_map_of p s, inl AssertionError)).
Proof.
  intros Hs. split; [| split].
  - intros calls. apply run_aligned. exact Hs.
  - intros done rest. split.
    + apply accumulate_aligned. exact Hs.
    + intros s1 Hdone. apply accumulate_app. exact Hdone.
  - intros p rest matches lists Hgt Hpr Hlen Hm Hred.
    cbn [accumulate]. unfold bind.
    rewrite accumulate_pred_unfold, Hm, Hred.
    assert (Hfp : only_false_positives p = true).
    { unfold only_false_positives. rewrite Hgt.
      destruct (Detection.labels (detection (pred p))); [contradiction |].
      reflexivity. }
    rewrite Hfp, length_map.
    destruct (Nat.eqb_spec
                (List.length (Detection.label_ids (detection (pred p))))
                (List.length (Detection.labels (detection (pred p)))))
      as [E | E]; [contradiction | reflexivity].
Qed.

(** C5: a [finalize] that returns leaves both label sequences empty,
    so in [accumulate(P); finalize(); accumulate([]); finalize()] the
    second [finalize] computes its result from empty sequences and the
    label list alone. *)
Theorem finalize_resets_label_sequences
        (P : list Prediction) (s s1 s2 : Self)
        (first : Dict (list (Dict Float))) :
  accumulate' P s = (s1, inr tt) ->
  finalize' s1 = (s2, inr first) ->
  target_labels _ s2 = [] /\
  predicted_labels _ s2 = [] /\
  accumulate' [] s2 = (s2, inr tt) /\
  exists cm : ClassMap,
    class_map _ s2 = Some cm /\
    snd (finalize' (fst (accumulate' [] s2))) =
    match finalize_outcome' [] [] (class2id_values cm) with
    | inl e => inl e
    | inr (_, second) => inr second
    end.
Proof.
  intros Hacc Hfin.
  rewrite finalize_unfold in Hfin.
  destruct (Nat.eqb _ _); [| discriminate].
  destruct (class_map _ s1) as [cm |] eqn:Hcm; [| discriminate].
  cbn zeta in Hfin.
  destruct (sk_confusion_matrix _ _ _) as [e | m]; [discriminate |].
  destruct (sk_precision_recall_fscore_support _ _ _) as [e | prfs];
    [discriminate |].
  destruct (infra_vessel np_round prfs) as [e | dicts]; [discriminate |].
  injection Hfin as <- <-.
  repeat split.
  exists cm. split; [exact Hcm |].
  cbn [accumulate ret fst].
  assert (Hal : aligned (finalized m s1)) by reflexivity.
  assert (Hcm' : class_map _ (finalized m s1) = Some cm) by exact Hcm.
  exact (proj1 (finalize_of_outcome _ cm Hal Hcm')).
Qed.

(** C6: a [finalize] that returns hands back precision, recall and F1
    of the classes with ids 1 and 2 and of no other class, each passed
    through [np.round(_, 3)], for a class map that enumerates its ids
    from 0; the matrix of the statistics engine goes unrounded into
    [self.confusion_matrix] and is no part of the returned value. *)
Theorem finalize_returns_infra_vessel_metrics
        (s s' : Self) (cm : ClassMap) (value : Dict (list (Dict Float))) :
  class_map _ s = Some cm ->
  firstn 3 (class2id_values cm) = [0; 1; 2]%Z ->
  finalize' s = (s', inr value) ->
  exists (m : Matrix) (p r f1 : list Float) (support : list Z)
         (p1 p2 r1 r2 f1_1 f1_2 : Float),
    sk_confusion_matrix (target_labels _ s) (predicted_labels _ s)
                        (class2id_values cm) = inr m /\
    sk_precision_recall_fscore_support
      (target_labels _ s) (predicted_labels _ s) (class2id_values cm)
    = inr (p, r, f1, support) /\
    entry_of_class (class2id_values cm) p 1 = Some p1 /\
    entry_of_class (class2id_values cm) p 2 = Some p2 /\
    entry_of_class (class2id_values cm) r 1 = Some r1 /\
    entry_of_class (class2id_values cm) r 2 = Some r2 /\
    entry_of_class (class2id_values cm) f1 1 = Some f1_1 /\
    entry_of_class (class2id_values cm) f1 2 = Some f1_2 /\
    value =
    [("dummy_value_for_fastai",
      [ [("Infra P", np_round p1 3); ("Vessel P", np_round p2 3)];
        [("Infra Recall", np_round r1 3); ("Vessel Recall", np_round r2 3)];
        [("Infra f1", np_round f1_1 3); ("Vessel f1", np_round f1_2 3)] ])] /\
    confusion_matrix _ s' = Some m.
Proof.
  intros Hcm Hids Hfin.
  rewrite finalize_unfold, Hcm in Hfin.
  destruct (Nat.eqb _ _); [| discriminate].
  cbn zeta in Hfin.
  destruct (sk_confusion_matrix _ _ _) as [e | m]; [discriminate |].
  destruct (sk_precision_recall_fscore_support _ _ _)
    as [e | [[[p r] f1] support]]; [discriminate |].
  unfold infra_vessel, rbind, np_index in Hfin.
  destruct (nth_error p 1) as [p1 |] eqn:Hp1; [| discriminate].
  destruct (nth_error p 2) as [p2 |] eqn:Hp2; [| discriminate].
  destruct (nth_error r 1) as [r1 |] eqn:Hr1; [| discriminate].
  destruct (nth_error r 2) as [r2 |] eqn:Hr2; [| discriminate].
  destruct (nth_error f1 1) as [f1_1 |] eqn:Hf1; [| discriminate].
  destruct (nth_error f1 2) as [f1_2 |] eqn:Hf2; [| discriminate].
  injection Hfin as <- <-.
  exists m, p, r, f1, support, p1, p2, r1, r2, f1_1, f1_2.
  repeat split;
    auto using entry_of_class_at_1, entry_of_class_at_2.
Qed.

(** C9, amended: on a freshly constructed accumulator [finalize]
    raises AttributeError, no class map having been recorded; on a
    state with empty label sequences and a class map, two [finalize]
    calls in a row both return what the statistics engine computes for
    empty sequences, provided the engine answers for them with vectors
    of at least three entries. *)
Theorem finalize_twice_on_empty_sequences :
  (forall (iou_threshold : Q) (policy : PyObject) (summary : bool),
      finalize' (__init__ iou_threshold policy summary)
      = (__init__ iou_threshold policy summary, inl no_class_map))
  /\
  (forall (s : Self) (cm : ClassMap) (m : Matrix)
          (value : Dict (list (Dict Float))),
      target_labels _ s = [] ->
      predicted_labels _ s = [] ->
      class_map _ s = Some cm ->
      finalize_outcome' [] [] (class2id_values cm) = inr (m, value) ->
      finalize' s = (finalized m s, inr value) /\
      finalize' (finalized m s) = (finalized m (finalized m s), inr value)).
Proof.
  split.
  - intros tau policy summary. rewrite finalize_unfold. reflexivity.
  - intros s cm m value Htl Hpl Hcm Hout.
    assert (Hal : aligned s).
    { unfold aligned. rewrite Htl, Hpl. reflexivity. }
    split.
    + apply (proj2 (finalize_of_outcome s cm Hal Hcm)).
      rewrite Htl, Hpl. exact Hout.
    + assert (Hal' : aligned (finalized m s)) by reflexivity.
      assert (Hcm' : class_map _ (finalized m s) = Some cm) by exact Hcm.
      apply (proj2 (finalize_of_outcome _ cm Hal' Hcm')).
      exact Hout.
Qed.

End LifecycleProperties.

Section UtilsProperties.

Import confusion_matrix_utils.

Variable iou : BBox -> BBox -> Q.

Lemma Qlt_bool_iff (a b : Q) : Qlt_bool a b = true <-> (a < b)%Q.
Proof.
  unfold Qlt_bool. rewrite negb_true_iff. split.
  - intros H. apply Qnot_le_lt. intros Hle.
    apply Qle_bool_iff in Hle. congruence.
  - intros H. destruct (Qle_bool b a) eqn:E; [| reflexivity].
    apply Qle_bool_iff in E. exfalso. exact (Qlt_not_le _ _ H E).
Qed.

Lemma Qlt_bool_false (a b : Q) : Qlt_bool a b = false -> (b <= a)%Q.
Proof.
  unfold Qlt_bool. rewrite negb_false_iff. apply Qle_bool_iff.
Qed.

(** Every prediction item carries the IoU of its box with the
    ground-truth box it was built for. *)
Lemma prediction_items_iou (b : BBox) (prediction : BaseRecord)
      (item : PredictionItem) :
  In item (prediction_items iou b prediction) ->
  iou_score item = iou b (predicted_bbox item).
Proof.
  unfold prediction_items. intros H. apply in_map_iff in H.
  destruct H as [[[box l] sc] [<- _]]. reflexivity.
Qed.

(** One Match entry per ground-truth box, in order. *)
Lemma match_records_targets (target prediction : BaseRecord) (tau : Q) :
  map fst (match_records iou target prediction tau) = target_items target.
Proof.
  unfold match_records. rewrite map_map. cbn. apply map_id.
Qed.

(** The candidates of an entry are exactly the prediction items whose
    IoU is at least the threshold. *)
Lemma match_records_candidates (target prediction : BaseRecord) (tau : Q)
      (t : TargetItem) (candidates : list PredictionItem) :
  In (t, candidates) (match_records iou target prediction tau) ->
  forall item,
    In item candidates <->
    In item (prediction_items iou (target_bbox t) prediction)
    /\ (tau <= iou_score item)%Q.
Proof.
  unfold match_records. intros H item. apply in_map_iff in H.
  destruct H as [t' [H _]]. injection H as -> <-.
  rewrite filter_In, Qle_bool_iff. reflexivity.
Qed.

(** C7: a predicted box whose IoU with a ground-truth box is equal to
    the threshold is among the candidates of that box's Match entry. *)
Theorem match_records_threshold_inclusive
        (target prediction : BaseRecord) (tau : Q)
        (t : TargetItem) (item : PredictionItem) :
  In t (target_items target) ->
  In item (prediction_items iou (target_bbox t) prediction) ->
  (iou (target_bbox t) (predicted_bbox item) == tau)%Q ->
  exists candidates : list PredictionItem,
    In (t, candidates) (match_records iou target prediction tau) /\
    In item candidates.
Proof.
  intros Ht Hitem Heq.
  exists (filter (fun item => Qle_bool tau (iou_score item))
                 (prediction_items iou (target_bbox t) prediction)).
  split.
  - unfold match_records. apply in_map_iff. exists t. split; [reflexivity | exact Ht].
  - apply filter_In. split; [exact Hitem |].
    apply Qle_bool_iff.
    rewrite (prediction_items_iou _ _ _ Hitem), Heq. apply Qle_refl.
Qed.

Lemma best_score_from_ge (rest : list PredictionItem) :
  forall best, (score best <= score (best_score_from best rest))%Q.
Proof.
  induction rest as [| x rest IH]; intros best; cbn.
  - apply Qle_refl.
  - destruct (Qlt_bool (score best) (score x)) eqn:E.
    + apply Qlt_bool_iff in E.
      apply Qle_trans with (score x); [apply Qlt_le_weak, E | apply IH].
    + apply IH.
Qed.

(** The scan splits the list at its answer: strictly smaller scores
    before it, no larger score after it. *)
Lemma best_score_from_split (rest : list PredictionItem) :
  forall best,
  exists before after,
    best :: rest = before ++ best_score_from best rest :: after /\
    (forall x, In x before -> (score x < score (best_score_from best rest))%Q) /\
    (forall x, In x after -> (score x <= score (best_score_from best rest))%Q).
Proof.
  induction rest as [| x rest IH]; intros best; cbn [best_score_from].
  - exists [], []. repeat split; intros x [].
  - destruct (Qlt_bool (score best) (score x)) eqn:E.
    + apply Qlt_bool_iff in E.
      destruct (IH x) as (before & after & Hsplit & Hb & Ha).
      exists (best :: before), after. split; [| split].
      * cbn. rewrite Hsplit. reflexivity.
      * intros y [<- | Hy]; [| apply Hb, Hy].
        apply Qlt_le_trans with (score x); [exact E | apply best_score_from_ge].
      * exact Ha.
    + apply Qlt_bool_false in E.
      destruct (IH best) as (before & after & Hsplit & Hb & Ha).
      destruct before as [| b before].
      * cbn in Hsplit. injection Hsplit as Hbest Hrest.
        exists [], (x :: rest). split; [| split].
        -- cbn. rewrite <- Hbest. reflexivity.
        -- intros y [].
        -- intros y [<- | Hy].
           ++ rewrite <- Hbest. exact E.
           ++ apply Ha. rewrite <- Hrest. exact Hy.
      * cbn in Hsplit. injection Hsplit as <- Hrest.
        exists (best :: x :: before), after. split; [| split].
        -- cbn. do 2 f_equal. exact Hrest.
        -- intros y [<- | [<- | Hy]].
           ++ apply Hb. left. reflexivity.
           ++ apply Qle_lt_trans with (score best); [exact E |].
              apply Hb. left. reflexivity.
           ++ apply Hb. right. exact Hy.
        -- exact Ha.
Qed.

(** C8: for a non-empty candidate list the selector answers a candidate
    of maximal score, and among the candidates of maximal score the
    first one: every candidate before it scores strictly less, every
    candidate after it scores no more.  The selector is a function of
    the candidate list alone. *)
Theorem get_best_score_item_first_maximum (items : list PredictionItem) :
  items <> [] ->
  exists (best : PredictionItem) (before after : list PredictionItem),
    get_best_score_item items = Some best /\
    items = before ++ best :: after /\
    (forall x, In x before -> (score x < score best)%Q) /\
    (forall x, In x after -> (score x <= score best)%Q) /\
    (forall x, In x items -> (score x <= score best)%Q).
Proof.
  intros Hne. destruct items as [| first rest]; [contradiction |].
  destruct (best_score_from_split rest first)
    as (before & after & Hsplit & Hb & Ha).
  exists (best_score_from first rest), before, after.
  repeat split; try assumption.
  intros x Hx. rewrite Hsplit in Hx. apply in_app_or in Hx.
  destruct Hx as [Hx | [<- | Hx]].
  - apply Qlt_le_weak, Hb, Hx.
  - apply Qle_refl.
  - apply Ha, Hx.
Qed.

End UtilsProperties.

Section PlotProperties.

Variables Matrix Figure : Type.
Variable np_div_sum_axis1 : option Matrix -> result (option Matrix).
Variable np_div_sum_axis0 : option Matrix -> result (option Matrix).
Variable np_div_sum : option Matrix -> result (option Matrix).
Variable np_nan_to_num : option Matrix -> result (option Matrix).
Variable style_figure : Figure -> Z -> Z -> result Figure.

Abbreviation plot_with display :=
  (plot np_div_sum_axis1 np_div_sum_axis0 np_div_sum np_nan_to_num
        display style_figure).

(** An accepted [normalize] that is not [None] is a non-empty string. *)
Lemma allowed_normalize_truthy (n : string) :
  normalize_not_allowed (Some n) = false -> truthy (Some n) = true.
Proof.
  unfold normalize_not_allowed, truthy. rewrite negb_false_iff, !orb_true_iff.
  intros [[H | H] | H]; apply String.eqb_eq in H; subst; reflexivity.
Qed.

(** The run of [plot] with the [values_format] keyword made explicit. *)
Lemma plot_unfold (display : option Matrix -> list string -> DisplayPlotArgs
                             -> result Figure)
      (normalize : option string) (xticks_rotation : string)
      (values_format : option string) (values_size : Z) (cmap : string)
      (figsize : Z) (display_args : Dict string)
      (s : SimpleConfusionMatrix Matrix) :
  plot_with display normalize xticks_rotation values_format values_size
            cmap figsize display_args s =
  if normalize_not_allowed normalize then
    (s, inl (ValueError "normalize must be one of {'true', 'pred', 'all', None}"))
  else
    match _maybe_normalize Matrix np_div_sum_axis1 np_div_sum_axis0
                           np_div_sum np_nan_to_num
                           (confusion_matrix _ s) normalize with
    | inl e => (s, inl e)
    | inr cm =>
        match class_map _ s with
        | None =>
            (s, inl (AttributeError
                       "'NoneType' object has no attribute '_id2class'"))
        | Some c =>
            match display cm (_id2class c)
                          (mkDisplayPlotArgs
                             xticks_rotation cmap
                             (match values_format with
                              | Some _ =>
                                  Some (match normalize with
                                        | Some _ => ".2f"
                                        | None => "d"
                                        end)
                              | None => None
                              end)
                             display_args) with
            | inl e => (s, inl e)
            | inr shown => (s, style_figure shown values_size figsize)
            end
        end
    end.
Proof.
  unfold plot, bind, get, lift, raise, ret.
  destruct (normalize_not_allowed normalize) eqn:Hn; [reflexivity |].
  destruct (_maybe_normalize _ _ _ _ _ _ _) as [e | cm]; [reflexivity |].
  destruct (class_map _ s) as [c |]; [| reflexivity].
  destruct normalize as [n |].
  - rewrite (allowed_normalize_truthy n Hn). reflexivity.
  - reflexivity.
Qed.

(** C10: the [values_format] that reaches the display is [None] when
    the caller passed [None], and otherwise [".2f"] when [normalize] is
    set and ["d"] when it is not; a string passed by the caller never
    reaches it.  So [plot] depends on the display only through calls
    with that format, and any two strings passed give the same run. *)
Theorem plot_values_format_is_derived
        (display display' : option Matrix -> list string -> DisplayPlotArgs
                            -> result Figure)
        (normalize : option string) (xticks_rotation : string)
        (values_format : option string) (values_size : Z) (cmap : string)
        (figsize : Z) (display_args : Dict string)
        (s : SimpleConfusionMatrix Matrix) :
  (forall cm display_labels args,
      arg_values_format args =
      match values_format with
      | Some _ => Some (match normalize with Some _ => ".2f" | None => "d" end)
      | None => None
      end ->
      display cm display_labels args = display' cm display_labels args) ->
  plot_with display normalize xticks_rotation values_format values_size
            cmap figsize display_args s
  = plot_with display' normalize xticks_rotation values_format values_size
              cmap figsize display_args s
  /\
  (forall given given' : string,
      plot_with display normalize xticks_rotation (Some given) values_size
                cmap figsize display_args s
      = plot_with display normalize xticks_rotation (Some given') values_size
                  cmap figsize display_args s).
Proof.
  intros Hsame. split.
  - rewrite !plot_unfold.
    destruct (normalize_not_allowed normalize); [reflexivity |].
    destruct (_maybe_normalize _ _ _ _ _ _ _) as [e | cm]; [reflexivity |].
    destruct (class_map _ s) as [c |]; [| reflexivity].
    rewrite Hsame; reflexivity.
  - intros given given'. rewrite !plot_unfold. reflexivity.
Qed.

End PlotProperties.

(** * The properties on the sample inputs *)

Section OnSamples.

Import sample.

Abbreviation best_score := (fresh (PyEnum BEST_SCORE)).

Example accumulate_then_finalize :
  sample.finalize (fst (sample.accumulate [false_positives; matched] best_score))
  = (finalized [ [0; 0; 1; 1; 0; 1]; [0; 1; 0; 0; 0; 0]; [0; 0; 1; 0; 0; 0];
                 [0; 0; 0; 0; 0; 0]; [0; 0; 0; 0; 0; 0]; [0; 0; 0; 0; 0; 0] ]%Z
               (fst (sample.accumulate [false_positives; matched] best_score)),
     inr [("dummy_value_for_fastai",
           [ [("Infra P", 1%Q); ("Vessel P", (1 # 2)%Q)];
             [("Infra Recall", 1%Q); ("Vessel Recall", 1%Q)];
             [("Infra f1", 1%Q); ("Vessel f1", (667 # 1000)%Q)] ])]).
Proof. vm_compute. reflexivity. Qed.

Example plot_ignores_the_given_format :
  snd (spy.plot (Some "true") (Some ".3e")
                (fst (sample.accumulate [matched] best_score)))
  = inr (mkDisplayPlotArgs "vertical" "PuBu" (Some ".2f") [])
  /\
  snd (spy.plot None (Some ".3e")
                (fst (sample.accumulate [matched] best_score)))
  = inr (mkDisplayPlotArgs "vertical" "PuBu" (Some "d") [])
  /\
  snd (spy.plot (Some "pred") None
                (fst (sample.accumulate [matched] best_score)))
  = inr (mkDisplayPlotArgs "vertical" "PuBu" None []).
Proof. repeat split; vm_compute; reflexivity. Qed.

(** The invariant on a run over the samples, two of the calls raising. *)
Lemma label_sequences_stay_aligned_witness :
  aligned best_score /\
  aligned (run (confusion_matrix_utils.match_records_call reference.iou)
               confusion_matrix_utils.get_best_score_item_call
               reference.confusion_matrix
               reference.precision_recall_fscore_support reference.round
               [CallAccumulate [false_positives; matched]; CallFinalize;
                CallAccumulate [ragged_false_positives]; CallFinalize]
               best_score) /\
  sample.accumulate [ragged_false_positives; matched] best_score
  = (with_class_map_of ragged_false_positives best_score, inl AssertionError).
Proof.
  assert (H0 : aligned best_score) by reflexivity.
  pose proof (label_sequences_stay_aligned
                _ _ (confusion_matrix_utils.match_records_call reference.iou)
                confusion_matrix_utils.get_best_score_item_call
                reference.confusion_matrix
                reference.precision_recall_fscore_support reference.round
                best_score H0) as (Hrun & _ & Hfatal).
  split; [exact H0 |]. split; [apply Hrun |].
  apply (Hfatal ragged_false_positives [matched] [] ([], [])).
  - reflexivity.
  - discriminate.
  - cbn. discriminate.
  - reflexivity.
  - reflexivity.
Defined.

(** The pair the selector computed for the unnamed box is overridden. *)
Lemma accumulate_false_positives_only_witness :
  Detection.labels (detection (ground_truth unnamed_against_three)) = [] /\
  Detection.labels (detection (pred unnamed_against_three))
  = ["Boat"; "Pier"; "Vessel"] /\
  reduce_matches confusion_matrix_utils.get_best_score_item_call
                 (PyEnum BEST_SCORE)
                 [(mkTargetItem (box 0 0 4 4) 1,
                   [mkPredictionItem (box 0 0 4 4) 3 (9 # 10) 1])] [] []
  = inr ([1%Z], [3%Z]) /\
  sample.accumulate [unnamed_against_three] best_score
  = (mkSelf false [0; 0; 0]%Z [3; 5; 2]%Z (1 # 2) (PyEnum BEST_SCORE)
            None None [],
     inr tt).
Proof.
  split; [reflexivity |]. split; [reflexivity |]. split; [reflexivity |].
  apply (accumulate_false_positives_only
           _ (confusion_matrix_utils.match_records_call reference.iou)
           confusion_matrix_utils.get_best_score_item_call
           unnamed_against_three [] best_score
           [(mkTargetItem (box 0 0 4 4) 1,
             [mkPredictionItem (box 0 0 4 4) 3 (9 # 10) 1])]
           ([1%Z], [3%Z])).
  - reflexivity.
  - discriminate.
  - reflexivity.
  - vm_compute. reflexivity.
  - reflexivity.
Defined.

(** The first image has no Match entry and is processed; the second
    has two and stops the run. *)
Lemma best_iou_not_implemented_witness :
  _policy _ (fresh (PyEnum BEST_IOU)) = PyEnum BEST_IOU /\
  sample.accumulate [false_positives] (fresh (PyEnum BEST_IOU))
  = (mkSelf false [0; 0; 0]%Z [3; 5; 2]%Z (1 # 2) (PyEnum BEST_IOU)
            (Some classes) None [],
     inr tt) /\
  sample.accumulate [false_positives; matched; false_positives]
                    (fresh (PyEnum BEST_IOU))
  = (mkSelf false [0; 0; 0]%Z [3; 5; 2]%Z (1 # 2) (PyEnum BEST_IOU)
            (Some classes) None [],
     inl NotImplementedError).
Proof.
  split; [reflexivity |]. split; [reflexivity |].
  apply (proj1 (best_iou_not_implemented
                  _ (confusion_matrix_utils.match_records_call reference.iou)
                  confusion_matrix_utils.get_best_score_item_call
                  (fresh (PyEnum BEST_IOU)) eq_refl)
               [false_positives] [false_positives] matched
               (mkSelf false [0; 0; 0]%Z [3; 5; 2]%Z (1 # 2) (PyEnum BEST_IOU)
                       (Some classes) None [])
               (mkTargetItem (box 0 0 4 4) 1,
                [mkPredictionItem (box 0 0 4 4) 1 (8 # 10) 1;
                 mkPredictionItem (box 0 0 4 2) 2 (8 # 10) (1 # 2)])
               [(mkTargetItem (box 10 10 14 14) 2,
                 [mkPredictionItem (box 10 10 14 14) 2 (6 # 10) 1])]).
  - reflexivity.
  - vm_compute. reflexivity.
Defined.

(** The integer 1 is not the member whose value is 1. *)
Lemma unknown_policy_runtime_error_witness :
  (forall m : MatchingPolicy, _policy _ (fresh (PyInt 1)) <> PyEnum m) /\
  sample.accumulate [false_positives; matched; false_positives]
                    (fresh (PyInt 1))
  = (mkSelf false [0; 0; 0]%Z [3; 5; 2]%Z (1 # 2) (PyInt 1)
            (Some classes) None [],
     inl (RuntimeError
            "policy must be one of [<MatchingPolicy.BEST_SCORE: 1>, <MatchingPolicy.BEST_IOU: 2>]")).
Proof.
  assert (H : forall m : MatchingPolicy, _policy _ (fresh (PyInt 1)) <> PyEnum m)
    by (intros m; discriminate).
  split; [exact H |].
  apply (proj1 (unknown_policy_runtime_error
                  _ (confusion_matrix_utils.match_records_call reference.iou)
                  confusion_matrix_utils.get_best_score_item_call
                  (fresh (PyInt 1)) H)
               [false_positives] [false_positives] matched
               (mkSelf false [0; 0; 0]%Z [3; 5; 2]%Z (1 # 2) (PyInt 1)
                       (Some classes) None [])
               (mkTargetItem (box 0 0 4 4) 1,
                [mkPredictionItem (box 0 0 4 4) 1 (8 # 10) 1;
                 mkPredictionItem (box 0 0 4 2) 2 (8 # 10) (1 # 2)])
               [(mkTargetItem (box 10 10 14 14) 2,
                 [mkPredictionItem (box 10 10 14 14) 2 (6 # 10) 1])]).
  - reflexivity.
  - vm_compute. reflexivity.
Defined.

(** Five label pairs in the first run, none in the second. *)
Lemma finalize_resets_label_sequences_witness :
  sample.accumulate [false_positives; matched] best_score
  = (mkSelf false [0; 0; 0; 1; 2]%Z [3; 5; 2; 1; 2]%Z (1 # 2)
            (PyEnum BEST_SCORE) (Some classes) None [],
     inr tt) /\
  target_labels _ (fst (sample.finalize
                          (fst (sample.accumulate [false_positives; matched]
                                                  best_score)))) = [] /\
  predicted_labels _ (fst (sample.finalize
                             (fst (sample.accumulate [false_positives; matched]
                                                     best_score)))) = [] /\
  exists cm : ClassMap,
    cm = classes /\
    snd (sample.finalize
           (fst (sample.accumulate
                   []
                   (fst (sample.finalize
                           (fst (sample.accumulate [false_positives; matched]
                                                   best_score)))))))
    = match finalize_outcome reference.confusion_matrix
                             reference.precision_recall_fscore_support
                             reference.round [] [] (class2id_values cm) with
      | inl e => inl e
      | inr (_, second) => inr second
      end.
Proof.
  split; [reflexivity |].
  destruct (finalize_resets_label_sequences
              _ _ (confusion_matrix_utils.match_records_call reference.iou)
              confusion_matrix_utils.get_best_score_item_call
              reference.confusion_matrix
              reference.precision_recall_fscore_support reference.round
              [false_positives; matched] best_score
              (fst (sample.accumulate [false_positives; matched] best_score))
              (fst (sample.finalize
                      (fst (sample.accumulate [false_positives; matched]
                                              best_score))))
              [("dummy_value_for_fastai",
                [ [("Infra P", 1%Q); ("Vessel P", (1 # 2)%Q)];
                  [("Infra Recall", 1%Q); ("Vessel Recall", 1%Q)];
                  [("Infra f1", 1%Q); ("Vessel f1", (667 # 1000)%Q)] ])]
              eq_refl eq_refl)
    as (Htl & Hpl & _ & cm & Hcm & Hsecond).
  split; [exact Htl |]. split; [exact Hpl |].
  exists cm. split; [| exact Hsecond].
  cbn in Hcm. injection Hcm as <-. reflexivity.
Defined.

(** The six entries returned for the five label pairs of the samples. *)
Lemma finalize_returns_infra_vessel_metrics_witness :
  firstn 3 (class2id_values classes) = [0; 1; 2]%Z /\
  exists m : sample.Matrix,
    reference.confusion_matrix [0; 0; 0; 1; 2]%Z [3; 5; 2; 1; 2]%Z
                               (class2id_values classes) = inr m /\
    sample.finalize (mkSelf false [0; 0; 0; 1; 2]%Z [3; 5; 2; 1; 2]%Z (1 # 2)
                            (PyEnum BEST_SCORE) (Some classes) None [])
    = (mkSelf false [] [] (1 # 2) (PyEnum BEST_SCORE) (Some classes)
              (Some m) [],
       inr [("dummy_value_for_fastai",
             [ [("Infra P", reference.round 1 3);
                ("Vessel P", reference.round (1 # 2) 3)];
               [("Infra Recall", reference.round 1 3);
                ("Vessel Recall", reference.round 1 3)];
               [("Infra f1", reference.round 1 3);
                ("Vessel f1", reference.round (2 # 3) 3)] ])]).
Proof.
  split; [reflexivity |].
  destruct (finalize_returns_infra_vessel_metrics
              _ _ reference.confusion_matrix
              reference.precision_recall_fscore_support reference.round
              (mkSelf false [0; 0; 0; 1; 2]%Z [3; 5; 2; 1; 2]%Z (1 # 2)
                      (PyEnum BEST_SCORE) (Some classes) None [])
              (fst (sample.finalize
                      (mkSelf false [0; 0; 0; 1; 2]%Z [3; 5; 2; 1; 2]%Z (1 # 2)
                              (PyEnum BEST_SCORE) (Some classes) None [])))
              classes
              [("dummy_value_for_fastai",
                [ [("Infra P", 1%Q); ("Vessel P", (1 # 2)%Q)];
                  [("Infra Recall", 1%Q); ("Vessel Recall", 1%Q)];
                  [("Infra f1", 1%Q); ("Vessel f1", (667 # 1000)%Q)] ])]
              eq_refl eq_refl eq_refl)
    as (m & p & r & f1 & support & p1 & p2 & r1 & r2 & f1_1 & f1_2
        & Hm & _ & _ & _ & _ & _ & _ & _ & _ & Hstored).
  exists m. split; [exact Hm |].
  vm_compute in Hstored. injection Hstored as <-.
  vm_compute. reflexivity.
Defined.

(** On a freshly constructed accumulator the first [finalize] raises
    AttributeError, and so does the second: no statistics come back. *)
Lemma finalize_on_fresh_accumulator_raises :
  sample.finalize best_score
  = (best_score,
     inl (AttributeError "'NoneType' object has no attribute '_class2id'"))
  /\
  snd (sample.finalize (fst (sample.finalize best_score)))
  = inl (AttributeError "'NoneType' object has no attribute '_class2id'").
Proof. split; vm_compute; reflexivity. Qed.

(** With a class map recorded, both calls return zeros. *)
Lemma finalize_twice_on_empty_sequences_witness :
  finalize_outcome reference.confusion_matrix
                   reference.precision_recall_fscore_support reference.round
                   [] [] (class2id_values classes)
  = inr (repeat (repeat 0%Z 6) 6,
         [("dummy_value_for_fastai",
           [ [("Infra P", 0%Q); ("Vessel P", 0%Q)];
             [("Infra Recall", 0%Q); ("Vessel Recall", 0%Q)];
             [("Infra f1", 0%Q); ("Vessel f1", 0%Q)] ])])
  /\
  sample.finalize (mkSelf false [] [] (1 # 2) (PyEnum BEST_SCORE)
                          (Some classes) None [])
  = (mkSelf false [] [] (1 # 2) (PyEnum BEST_SCORE) (Some classes)
            (Some (repeat (repeat 0%Z 6) 6)) [],
     inr [("dummy_value_for_fastai",
           [ [("Infra P", 0%Q); ("Vessel P", 0%Q)];
             [("Infra Recall", 0%Q); ("Vessel Recall", 0%Q)];
             [("Infra f1", 0%Q); ("Vessel f1", 0%Q)] ])])
  /\
  sample.finalize (mkSelf false [] [] (1 # 2) (PyEnum BEST_SCORE)
                          (Some classes)
                          (Some (repeat (repeat 0%Z 6) 6)) [])
  = (mkSelf false [] [] (1 # 2) (PyEnum BEST_SCORE) (Some classes)
            (Some (repeat (repeat 0%Z 6) 6)) [],
     inr [("dummy_value_for_fastai",
           [ [("Infra P", 0%Q); ("Vessel P", 0%Q)];
             [("Infra Recall", 0%Q); ("Vessel Recall", 0%Q)];
             [("Infra f1", 0%Q); ("Vessel f1", 0%Q)] ])]).
Proof.
  assert (Hout : finalize_outcome
                   reference.confusion_matrix
                   reference.precision_recall_fscore_support reference.round
                   [] [] (class2id_values classes)
                 = inr (repeat (repeat 0%Z 6) 6,
                        [("dummy_value_for_fastai",
                          [ [("Infra P", 0%Q); ("Vessel P", 0%Q)];
                            [("Infra Recall", 0%Q); ("Vessel Recall", 0%Q)];
                            [("Infra f1", 0%Q); ("Vessel f1", 0%Q)] ])]))
    by reflexivity.
  split; [exact Hout |].
  exact (proj2 (finalize_twice_on_empty_sequences
                  _ _ reference.confusion_matrix
                  reference.precision_recall_fscore_support reference.round)
               (mkSelf false [] [] (1 # 2) (PyEnum BEST_SCORE)
                       (Some classes) None [])
               classes (repeat (repeat 0%Z 6) 6) _
               eq_refl eq_refl eq_refl Hout).
Defined.

(** The lower half of a box overlaps it with IoU 1/2, the threshold. *)
Lemma match_records_threshold_inclusive_witness :
  In (mkTargetItem (box 0 0 4 4) 1)
     (confusion_matrix_utils.target_items two_truths) /\
  In (mkPredictionItem (box 0 0 4 2) 2 (8 # 10) (1 # 2))
     (confusion_matrix_utils.prediction_items reference.iou (box 0 0 4 4)
                                              three_hits) /\
  (reference.iou (box 0 0 4 4) (box 0 0 4 2) == 1 # 2)%Q /\
  exists candidates : list PredictionItem,
    In (mkTargetItem (box 0 0 4 4) 1, candidates)
       (confusion_matrix_utils.match_records reference.iou two_truths
                                             three_hits (1 # 2)) /\
    In (mkPredictionItem (box 0 0 4 2) 2 (8 # 10) (1 # 2)) candidates.
Proof.
  assert (Ht : In (mkTargetItem (box 0 0 4 4) 1)
                  (confusion_matrix_utils.target_items two_truths))
    by (left; reflexivity).
  assert (Hitem : In (mkPredictionItem (box 0 0 4 2) 2 (8 # 10) (1 # 2))
                     (confusion_matrix_utils.prediction_items
                        reference.iou (box 0 0 4 4) three_hits))
    by (right; left; reflexivity).
  assert (Heq : (reference.iou (box 0 0 4 4) (box 0 0 4 2) == 1 # 2)%Q)
    by reflexivity.
  split; [exact Ht |]. split; [exact Hitem |]. split; [exact Heq |].
  exact (match_records_threshold_inclusive
           reference.iou two_truths three_hits (1 # 2)
           (mkTargetItem (box 0 0 4 4) 1)
           (mkPredictionItem (box 0 0 4 2) 2 (8 # 10) (1 # 2))
           Ht Hitem Heq).
Defined.

Example get_best_score_item_on_ties :
  confusion_matrix_utils.get_best_score_item
    [mkPredictionItem (box 0 0 4 4) 3 (6 # 10) 1;
     mkPredictionItem (box 0 0 4 4) 1 (8 # 10) 1;
     mkPredictionItem (box 0 0 4 2) 2 (8 # 10) (1 # 2);
     mkPredictionItem (box 0 0 4 3) 5 (7 # 10) (3 # 4)]
  = Some (mkPredictionItem (box 0 0 4 4) 1 (8 # 10) 1).
Proof. reflexivity. Qed.

(** Scores 0.6, 0.8, 0.8, 0.7: the second item is the answer. *)
Lemma get_best_score_item_first_maximum_witness :
  [mkPredictionItem (box 0 0 4 4) 3 (6 # 10) 1;
   mkPredictionItem (box 0 0 4 4) 1 (8 # 10) 1;
   mkPredictionItem (box 0 0 4 2) 2 (8 # 10) (1 # 2);
   mkPredictionItem (box 0 0 4 3) 5 (7 # 10) (3 # 4)] <> [] /\
  exists (best : PredictionItem) (before after : list PredictionItem),
    confusion_matrix_utils.get_best_score_item
      [mkPredictionItem (box 0 0 4 4) 3 (6 # 10) 1;
       mkPredictionItem (box 0 0 4 4) 1 (8 # 10) 1;
       mkPredictionItem (box 0 0 4 2) 2 (8 # 10) (1 # 2);
       mkPredictionItem (box 0 0 4 3) 5 (7 # 10) (3 # 4)]
    = Some best /\
    [mkPredictionItem (box 0 0 4 4) 3 (6 # 10) 1;
     mkPredictionItem (box 0 0 4 4) 1 (8 # 10) 1;
     mkPredictionItem (box 0 0 4 2) 2 (8 # 10) (1 # 2);
     mkPredictionItem (box 0 0 4 3) 5 (7 # 10) (3 # 4)]
    = before ++ best :: after /\
    (forall x, In x before -> (score x < score best)%Q) /\
    (forall x, In x after -> (score x <= score best)%Q) /\
    (forall x,
        In x [mkPredictionItem (box 0 0 4 4) 3 (6 # 10) 1;
              mkPredictionItem (box 0 0 4 4) 1 (8 # 10) 1;
              mkPredictionItem (box 0 0 4 2) 2 (8 # 10) (1 # 2);
              mkPredictionItem (box 0 0 4 3) 5 (7 # 10) (3 # 4)] ->
        (score x <= score best)%Q).
Proof.
  split; [discriminate |].
  apply get_best_score_item_first_maximum. discriminate.
Defined.

(** A display that always reports [".2f"] cannot be told from the spy
    when [normalize] is set, whatever format was passed. *)
Lemma plot_values_format_is_derived_witness :
  (forall (cm : option sample.Matrix) (display_labels : list string)
          (args : DisplayPlotArgs),
      arg_values_format args = Some ".2f" ->
      spy.cm_display_plot cm display_labels args
      = ok (mkDisplayPlotArgs (arg_xticks_rotation args) (arg_cmap args)
                              (Some ".2f") (arg_display_args args)))
  /\
  plot spy.numpy spy.numpy spy.numpy spy.numpy spy.cm_display_plot
       spy.style_figure (Some "true") "vertical" (Some ".3e") 12 "PuBu" 11 []
       (mkSelf false [] [] (1 # 2) (PyEnum BEST_SCORE) (Some classes)
               (Some (repeat (repeat 0%Z 6) 6)) [])
  = (mkSelf false [] [] (1 # 2) (PyEnum BEST_SCORE) (Some classes)
            (Some (repeat (repeat 0%Z 6) 6)) [],
     inr (mkDisplayPlotArgs "vertical" "PuBu" (Some ".2f") [])).
Proof.
  assert (H : forall (cm : option sample.Matrix) (display_labels : list string)
                     (args : DisplayPlotArgs),
             arg_values_format args = Some ".2f" ->
             spy.cm_display_plot cm display_labels args
             = ok (mkDisplayPlotArgs (arg_xticks_rotation args) (arg_cmap args)
                                     (Some ".2f") (arg_display_args args))).
  { intros cm display_labels [rotation cmap format more]. cbn.
    intros ->. reflexivity. }
  split; [exact H |].
  exact (eq_trans
           (proj1 (plot_values_format_is_derived
                     _ _ spy.numpy spy.numpy spy.numpy spy.numpy
                     spy.style_figure spy.cm_display_plot
                     (fun _ _ args =>
                        ok (mkDisplayPlotArgs
                              (arg_xticks_rotation args) (arg_cmap args)
                              (Some ".2f") (arg_display_args args)))
                     (Some "true") "vertical" (Some ".3e") 12 "PuBu" 11 []
                     (mkSelf false [] [] (1 # 2) (PyEnum BEST_SCORE)
                             (Some classes)
                             (Some (repeat (repeat 0%Z 6) 6)) [])
                     H))
           eq_refl).
Defined.

End OnSamples.

(** * Further properties of the accumulator *)

Section AccumulateBehaviour.

Variable Matrix : Type.
Variable match_records : BaseRecord -> BaseRecord -> Q -> result (list Match).
Variable get_best_score_item : list PredictionItem -> result PredictionItem.

Abbreviation Self := (SimpleConfusionMatrix Matrix).
Abbreviation accumulate_pred' :=
  (accumulate_pred match_records get_best_score_item).
Abbreviation accumulate' := (accumulate match_records get_best_score_item).
Abbreviation reduce_matches' := (reduce_matches get_best_score_item).

(** X1: feeding the images in two batches is feeding them in one; when
    the first batch raises, so does the whole, in the same state. *)
Theorem accumulate_in_batches (first second : list Prediction) (s : Self) :
  accumulate' (first ++ second) s =
  match accumulate' first s with
  | (s1, inl e) => (s1, inl e)
  | (s1, inr _) => accumulate' second s1
  end.
Proof.
  revert s. induction first as [| p first IH]; intros s; cbn [app accumulate].
  - reflexivity.
  - unfold bind. destruct (accumulate_pred' p s) as [s0 [e | []]].
    + reflexivity.
    + apply IH.
Qed.

(** What one image does to the object, whatever the outcome. *)
Lemma accumulate_pred_only_appends (p : Prediction) (s : Self) :
  exists tl pl : list Z,
    List.length tl = List.length pl /\
    fst (accumulate_pred' p s) = extended p tl pl s.
Proof.
  assert (Hnone : with_class_map_of p s = extended p [] [] s).
  { unfold with_class_map_of, extended, set_class_map.
    rewrite !app_nil_r. reflexivity. }
  rewrite accumulate_pred_unfold.
  destruct (match_records _ _ _) as [e | matches];
    [exists [], []; split; [reflexivity | exact Hnone] |].
  destruct (reduce_matches' _ matches [] []) as [e | lists];
    [exists [], []; split; [reflexivity | exact Hnone] |].
  destruct (if only_false_positives p then _ else lists) as [tl pl].
  destruct (Nat.eqb_spec (List.length pl) (List.length tl)) as [E | E].
  - exists tl, pl. split; [symmetry; exact E | reflexivity].
  - exists [], []. split; [reflexivity | exact Hnone].
Qed.

(** X2: whatever its outcome, [accumulate] only appends, and the same
    number of labels to both sequences; it leaves [print_summary], the
    threshold, the policy, the stored matrix and the output alone. *)
Theorem accumulate_only_appends (preds : list Prediction) (s : Self) :
  exists tl pl : list Z,
    List.length tl = List.length pl /\
    target_labels _ (fst (accumulate' preds s)) = target_labels _ s ++ tl /\
    predicted_labels _ (fst (accumulate' preds s))
    = predicted_labels _ s ++ pl /\
    print_summary _ (fst (accumulate' preds s)) = print_summary _ s /\
    _iou_threshold _ (fst (accumulate' preds s)) = _iou_threshold _ s /\
    _policy _ (fst (accumulate' preds s)) = _policy _ s /\
    confusion_matrix _ (fst (accumulate' preds s)) = confusion_matrix _ s /\
    stdout _ (fst (accumulate' preds s)) = stdout _ s.
Proof.
  revert s. induction preds as [| p rest IH]; intros s.
  - exists [], []. cbn. rewrite !app_nil_r. repeat split.
  - cbn [accumulate]. unfold bind.
    destruct (accumulate_pred_only_appends p s) as (tl & pl & Hlen & Hp).
    destruct (accumulate_pred' p s) as [s1 [e | []]]; cbn [fst] in Hp |- *;
      subst s1.
    + exists tl, pl. repeat split. exact Hlen.
    + destruct (IH (extended p tl pl s))
        as (tl' & pl' & Hlen' & Htl & Hpl & H1 & H2 & H3 & H4 & H5).
      exists (tl ++ tl'), (pl ++ pl').
      rewrite Htl, Hpl, H1, H2, H3, H4, H5. cbn.
      rewrite !length_app, !app_assoc. repeat split. lia.
Qed.

(** An image that raises has set the class map and nothing else. *)
Lemma accumulate_pred_failure (p : Prediction) (s s' : Self) (e : PyError) :
  accumulate_pred' p s = (s', inl e) -> s' = with_class_map_of p s.
Proof.
  rewrite accumulate_pred_unfold.
  destruct (match_records _ _ _) as [e' | matches];
    [intros H; injection H as <- _; reflexivity |].
  destruct (reduce_matches' _ matches [] []) as [e' | lists];
    [intros H; injection H as <- _; reflexivity |].
  destruct (if only_false_positives p then _ else lists) as [tl pl].
  destruct (Nat.eqb _ _); intros H; [discriminate |].
  injection H as <- _. reflexivity.
Qed.

(** X3: when [accumulate] raises, the images before the failing one
    are all in the sequences, the failing image has only replaced the
    class map, and the images after it were not looked at. *)
Theorem accumulate_failure_keeps_processed_images
        (preds : list Prediction) (s s' : Self) (e : PyError) :
  accumulate' preds s = (s', inl e) ->
  exists (done : list Prediction) (p : Prediction) (rest : list Prediction)
         (s1 : Self),
    preds = done ++ p :: rest /\
    accumulate' done s = (s1, inr tt) /\
    accumulate_pred' p s1 = (s', inl e) /\
    s' = with_class_map_of p s1.
Proof.
  revert s. induction preds as [| p rest IH]; intros s Hrun;
    cbn [accumulate] in Hrun.
  - discriminate.
  - unfold bind in Hrun.
    destruct (accumulate_pred' p s) as [s0 [e0 | []]] eqn:Hp.
    + injection Hrun as <- <-.
      exists [], p, rest, s. repeat split; try assumption.
      apply (accumulate_pred_failure p s s0 e0 Hp).
    + destruct (IH s0 Hrun) as (done & q & rest' & s1 & -> & Hdone & Hq & Hs').
      exists (p :: done), q, rest', s1. repeat split; try assumption.
      cbn [accumulate]. unfold bind. rewrite Hp. exact Hdone.
Qed.

(** X4: after an [accumulate] that returns, [self.class_map] is the
    class map of the ground truth of the last image, whatever the
    earlier images carried. *)
Theorem accumulate_records_last_class_map
        (preds : list Prediction) (p : Prediction) (s s' : Self) :
  accumulate' (preds ++ [p]) s = (s', inr tt) ->
  class_map _ s' = Detection.class_map (detection (ground_truth p)).
Proof.
  rewrite accumulate_in_batches.
  destruct (accumulate' preds s) as [s1 [e | []]]; [discriminate |].
  cbn [accumulate]. unfold bind.
  destruct (accumulate_pred_only_appends p s1) as (tl & pl & _ & Hp).
  destruct (accumulate_pred' p s1) as [s2 [e | []]]; [discriminate |].
  cbn in Hp. subst s2. unfold ret. intros H. injection H as <-. reflexivity.
Qed.

(** X5: under BEST_SCORE the loop over the Match entries returns
    exactly when the selector returns on the candidates of every entry,
    empty candidate lists included; it then adds one pair per entry, in
    order: the entry's target label id and the label id of the item
    the selector answered. *)
Theorem best_score_one_pair_per_match
        (matches : list Match) (tl pl tl' pl' : list Z) :
  reduce_matches' (PyEnum BEST_SCORE) matches tl pl = inr (tl', pl') <->
  exists items : list PredictionItem,
    Forall2 (fun (m : Match) item => get_best_score_item (snd m) = inr item)
            matches items /\
    tl' = tl ++ map (fun m : Match => target_label_id (fst m)) matches /\
    pl' = pl ++ map predicted_label_id items.
Proof.
  revert tl pl. induction matches as [| [target_item candidates] rest IH];
    intros tl pl; cbn [reduce_matches].
  - split.
    + intros H. injection H as <- <-. exists []. cbn.
      rewrite !app_nil_r. repeat split. constructor.
    + intros (items & HF & -> & ->). inversion HF; subst. cbn.
      rewrite !app_nil_r. reflexivity.
  - unfold select_item. cbn [py_eq_member MatchingPolicyEnum.eqb].
    split.
    + destruct (get_best_score_item candidates) as [e | item] eqn:Hsel;
        cbn [rbind]; [discriminate |].
      intros H. apply IH in H. destruct H as (items & HF & -> & ->).
      exists (item :: items). cbn. rewrite <- !app_assoc. repeat split.
      constructor; assumption.
    + intros (items & HF & -> & ->). inversion HF as [| m item ms its Hm HF']; subst.
      cbn in Hm. rewrite Hm. cbn [rbind]. apply IH.
      exists its. cbn. rewrite <- !app_assoc. repeat split. exact HF'.
Qed.

(** X6: an image outside the false-positive branch adds as many pairs
    as the matcher answered Match entries, however many boxes were
    predicted: predictions that matched no ground-truth box add
    nothing, and no Match entry is skipped. *)
Theorem accumulate_counts_match_entries_only
        (p : Prediction) (s : Self) (matches : list Match)
        (items : list PredictionItem) :
  only_false_positives p = false ->
  _policy _ s = PyEnum BEST_SCORE ->
  match_records (ground_truth p) (pred p) (_iou_threshold _ s) = inr matches ->
  Forall2 (fun (m : Match) item => get_best_score_item (snd m) = inr item)
          matches items ->
  accumulate_pred' p s
  = (extended p (map (fun m : Match => target_label_id (fst m)) matches)
              (map predicted_label_id items) s,
     inr tt).
Proof.
  intros Hfp Hpol Hm HF.
  assert (Hred : reduce_matches' (PyEnum BEST_SCORE) matches [] []
                 = inr (map (fun m : Match => target_label_id (fst m)) matches,
                        map predicted_label_id items)).
  { apply best_score_one_pair_per_match. exists items. repeat split. exact HF. }
  rewrite accumulate_pred_unfold, Hm, Hpol, Hred, Hfp.
  rewrite !length_map, (Forall2_length HF), Nat.eqb_refl. reflexivity.
Qed.

End AccumulateBehaviour.

Section FinalizeBehaviour.

Variables Matrix Float : Type.
Variable match_records : BaseRecord -> BaseRecord -> Q -> result (list Match).
Variable get_best_score_item : list PredictionItem -> result PredictionItem.
Variable sk_confusion_matrix : list Z -> list Z -> list Z -> result Matrix.
Variable sk_precision_recall_fscore_support :
  list Z -> list Z -> list Z ->
  result (list Float * list Float * list Float * list Z).
Variable np_round : Float -> Z -> Float.

Abbreviation Self := (SimpleConfusionMatrix Matrix).
Abbreviation accumulate' := (accumulate match_records get_best_score_item).
Abbreviation finalize' :=
  (finalize sk_confusion_matrix sk_precision_recall_fscore_support np_round).
Abbreviation finalize_outcome' :=
  (finalize_outcome sk_confusion_matrix sk_precision_recall_fscore_support
                    np_round).
Abbreviation run' :=
  (run match_records get_best_score_item sk_confusion_matrix
       sk_precision_recall_fscore_support np_round).

(** X7: on sequences of different lengths [finalize] raises
    AssertionError before it looks at the class map or calls the
    statistics engine, and changes nothing. *)
Theorem finalize_rejects_misaligned_sequences (s : Self) :
  ~ aligned s ->
  finalize' s = (s, inl AssertionError).
Proof.
  unfold aligned. intros Hlen. rewrite finalize_unfold.
  destruct (Nat.eqb_spec (List.length (target_labels _ s))
                         (List.length (predicted_labels _ s)));
    [contradiction | reflexivity].
Qed.

(** X8: a [finalize] that raises resets nothing and prints nothing:
    both label sequences, the class map, the configuration and the
    output are as before; at most the stored matrix was replaced. *)
Theorem finalize_failure_keeps_labels (s s' : Self) (e : PyError) :
  finalize' s = (s', inl e) ->
  target_labels _ s' = target_labels _ s /\
  predicted_labels _ s' = predicted_labels _ s /\
  class_map _ s' = class_map _ s /\
  stdout _ s' = stdout _ s /\
  print_summary _ s' = print_summary _ s /\
  _iou_threshold _ s' = _iou_threshold _ s /\
  _policy _ s' = _policy _ s /\
  (s' = s \/ exists m, s' = set_confusion_matrix _ (Some m) s).
Proof.
  rewrite finalize_unfold.
  destruct (Nat.eqb _ _);
    [| intros H; injection H as <- _; repeat split; left; reflexivity].
  destruct (class_map _ s) as [cm |] eqn:Hcm;
    [| intros H; injection H as <- _; rewrite Hcm; repeat split; left;
       reflexivity].
  cbn zeta.
  destruct (sk_confusion_matrix _ _ _) as [e1 | m];
    [intros H; injection H as <- _; rewrite Hcm; repeat split; left;
     reflexivity |].
  destruct (sk_precision_recall_fscore_support _ _ _) as [e2 | prfs];
    [intros H; injection H as <- _; cbn; rewrite Hcm; repeat split; right;
     exists m; reflexivity |].
  destruct (infra_vessel np_round prfs) as [e3 | dicts];
    [intros H; injection H as <- _; cbn; rewrite Hcm; repeat split; right;
     exists m; reflexivity |].
  discriminate.
Qed.

(** X9: when one of the vectors the engine answers has fewer than
    three entries, as for a class map of fewer than three classes,
    [finalize] raises IndexError: the matrix is stored, but the label
    sequences are not reset. *)
Theorem finalize_short_vectors_index_error
        (s : Self) (cm : ClassMap) (m : Matrix)
        (p r f1 : list Float) (support : list Z) :
  aligned s ->
  class_map _ s = Some cm ->
  sk_confusion_matrix (target_labels _ s) (predicted_labels _ s)
                      (class2id_values cm) = inr m ->
  sk_precision_recall_fscore_support
    (target_labels _ s) (predicted_labels _ s) (class2id_values cm)
  = inr (p, r, f1, support) ->
  (List.length p < 3 \/ List.length r < 3 \/ List.length f1 < 3)%nat ->
  finalize' s
  = (set_confusion_matrix _ (Some m) s,
     inl (IndexError "index is out of bounds for axis 0")).
Proof.
  intros Hal Hcm Hm Hprfs Hshort. unfold aligned in Hal.
  rewrite finalize_unfold, Hal, Nat.eqb_refl, Hcm. cbn zeta.
  rewrite Hm, Hprfs.
  assert (Hnth : forall (v : list Float) (i : nat),
             (List.length v <= i)%nat -> nth_error v i = None).
  { intros v i. apply nth_error_None. }
  assert (Hraise : infra_vessel np_round (p, r, f1, support)
                   = inl (IndexError "index is out of bounds for axis 0")).
  { unfold infra_vessel, rbind, np_index.
    destruct (nth_error p 1) as [p1 |] eqn:Hp1; [| reflexivity].
    destruct (nth_error p 2) as [p2 |] eqn:Hp2; [| reflexivity].
    destruct (nth_error r 1) as [r1 |] eqn:Hr1; [| reflexivity].
    destruct (nth_error r 2) as [r2 |] eqn:Hr2; [| reflexivity].
    destruct (nth_error f1 1) as [f1_1 |] eqn:Hf1; [| reflexivity].
    destruct (nth_error f1 2) as [f1_2 |] eqn:Hf2; [| reflexivity].
    exfalso. destruct Hshort as [H | [H | H]].
    - rewrite (Hnth p 2%nat) in Hp2; [discriminate | lia].
    - rewrite (Hnth r 2%nat) in Hr2; [discriminate | lia].
    - rewrite (Hnth f1 2%nat) in Hf2; [discriminate | lia]. }
  rewrite Hraise. reflexivity.
Qed.

(** X10: a [finalize] that returns writes the matrix it has just
    stored to the output when [print_summary] is set, once, and
    writes nothing when it is not. *)
Theorem finalize_prints_stored_matrix
        (s s' : Self) (value : Dict (list (Dict Float))) :
  finalize' s = (s', inr value) ->
  confusion_matrix _ s' <> None /\
  stdout _ s' = if print_summary _ s
                then stdout _ s ++ [confusion_matrix _ s']
                else stdout _ s.
Proof.
  rewrite finalize_unfold.
  destruct (Nat.eqb _ _); [| discriminate].
  destruct (class_map _ s) as [cm |]; [| discriminate].
  cbn zeta.
  destruct (sk_confusion_matrix _ _ _) as [e | m]; [discriminate |].
  destruct (sk_precision_recall_fscore_support _ _ _) as [e | prfs];
    [discriminate |].
  destruct (infra_vessel np_round prfs) as [e | dicts]; [discriminate |].
  intros H. injection H as <- _. cbn. split; [discriminate | reflexivity].
Qed.

Lemma finalize_configuration (s : Self) :
  print_summary _ (fst (finalize' s)) = print_summary _ s /\
  _iou_threshold _ (fst (finalize' s)) = _iou_threshold _ s /\
  _policy _ (fst (finalize' s)) = _policy _ s /\
  class_map _ (fst (finalize' s)) = class_map _ s.
Proof.
  rewrite finalize_unfold.
  destruct (Nat.eqb _ _); [| repeat split].
  destruct (class_map _ s) as [cm |] eqn:Hcm;
    [| cbn [fst]; repeat split; exact Hcm].
  cbn zeta.
  destruct (sk_confusion_matrix _ _ _) as [e | m];
    [cbn [fst]; repeat split; exact Hcm |].
  destruct (sk_precision_recall_fscore_support _ _ _) as [e | prfs];
    [cbn; repeat split; exact Hcm |].
  destruct (infra_vessel np_round prfs) as [e | dicts];
    cbn; repeat split; exact Hcm.
Qed.

(** X11: no sequence of [accumulate] and [finalize] calls, raising or
    not, changes [print_summary], the IoU threshold or the policy the
    object was constructed with. *)
Theorem run_keeps_configuration (calls : list Call) (s : Self) :
  print_summary _ (run' calls s) = print_summary _ s /\
  _iou_threshold _ (run' calls s) = _iou_threshold _ s /\
  _policy _ (run' calls s) = _policy _ s.
Proof.
  revert s. induction calls as [| c calls IH]; intros s; [repeat split |].
  cbn [run fold_left]. fold (run' calls (call match_records get_best_score_item
    sk_confusion_matrix sk_precision_recall_fscore_support np_round c s)).
  destruct (IH (call match_records get_best_score_item sk_confusion_matrix
                     sk_precision_recall_fscore_support np_round c s))
    as (H1 & H2 & H3).
  rewrite H1, H2, H3. destruct c as [preds |]; cbn [call].
  - destruct (accumulate_only_appends _ match_records get_best_score_item
                                      preds s)
      as (tl & pl & _ & _ & _ & Hps & Htau & Hpol & _ & _).
    repeat split; assumption.
  - destruct (finalize_configuration s) as (Hps & Htau & Hpol & _).
    repeat split; assumption.
Qed.

(** X12: an accumulator whose [print_summary] is off writes nothing,
    whatever is called on it. *)
Theorem run_without_summary_prints_nothing (calls : list Call) (s : Self) :
  print_summary _ s = false ->
  stdout _ (run' calls s) = stdout _ s.
Proof.
  revert s. induction calls as [| c calls IH]; intros s Hoff; [reflexivity |].
  cbn [run fold_left]. fold (run' calls (call match_records get_best_score_item
    sk_confusion_matrix sk_precision_recall_fscore_support np_round c s)).
  destruct c as [preds |]; cbn [call].
  - destruct (accumulate_only_appends _ match_records get_best_score_item
                                      preds s)
      as (tl & pl & _ & _ & _ & Hps & _ & _ & _ & Hout).
    rewrite IH; [exact Hout | congruence].
  - destruct (finalize_configuration s) as (Hps & _).
    rewrite IH; [| congruence].
    destruct (finalize' s) as [s1 [e | value]] eqn:Hfin; cbn [fst].
    + apply (finalize_failure_keeps_labels s s1 e Hfin).
    + destruct (finalize_prints_stored_matrix s s1 value Hfin) as [_ Hout].
      rewrite Hoff in Hout. exact Hout.
Qed.

(** X13: [finalize] works with the class map of the last image that
    was accumulated: when that image's ground truth carries none,
    [finalize] raises AttributeError although earlier images had one;
    otherwise the engine is given that map's ids as label list. *)
Theorem finalize_uses_last_class_map
        (preds : list Prediction) (p : Prediction) (s s1 : Self) :
  aligned s ->
  accumulate' (preds ++ [p]) s = (s1, inr tt) ->
  snd (finalize' s1) =
  match Detection.class_map (detection (ground_truth p)) with
  | None => inl no_class_map
  | Some cm =>
      match finalize_outcome' (target_labels _ s1) (predicted_labels _ s1)
                              (class2id_values cm) with
      | inl e => inl e
      | inr (_, value) => inr value
      end
  end.
Proof.
  intros Hal Hrun.
  pose proof (accumulate_records_last_class_map
                _ match_records get_best_score_item preds p s s1 Hrun) as Hcm.
  pose proof (accumulate_aligned _ match_records get_best_score_item
                                 (preds ++ [p]) s Hal) as Hal1.
  rewrite Hrun in Hal1. cbn [fst] in Hal1.
  destruct (Detection.class_map (detection (ground_truth p))) as [cm |].
  - exact (proj1 (finalize_of_outcome _ _ sk_confusion_matrix
                    sk_precision_recall_fscore_support np_round s1 cm
                    Hal1 Hcm)).
  - rewrite finalize_unfold. unfold aligned in Hal1.
    rewrite Hal1, Nat.eqb_refl, Hcm. reflexivity.
Qed.

End FinalizeBehaviour.

Section PlotBehaviour.

Variables Matrix Float Figure : Type.
Variable sk_confusion_matrix : list Z -> list Z -> list Z -> result Matrix.
Variable sk_precision_recall_fscore_support :
  list Z -> list Z -> list Z ->
  result (list Float * list Float * list Float * list Z).
Variable np_round : Float -> Z -> Float.
Variable np_div_sum_axis1 : option Matrix -> result (option Matrix).
Variable np_div_sum_axis0 : option Matrix -> result (option Matrix).
Variable np_div_sum : option Matrix -> result (option Matrix).
Variable np_nan_to_num : option Matrix -> result (option Matrix).
Variable style_figure : Figure -> Z -> Z -> result Figure.

Abbreviation Self := (SimpleConfusionMatrix Matrix).
Abbreviation finalize' :=
  (finalize sk_confusion_matrix sk_precision_recall_fscore_support np_round).
Abbreviation plot_with display :=
  (plot np_div_sum_axis1 np_div_sum_axis0 np_div_sum np_nan_to_num
        display style_figure).
Abbreviation _maybe_normalize' :=
  (_maybe_normalize Matrix np_div_sum_axis1 np_div_sum_axis0 np_div_sum
                    np_nan_to_num).

(** X14: a [normalize] string other than "true", "pred" and "all"
    makes [plot] raise ValueError before numpy, the class map or the
    display are touched. *)
Theorem plot_rejects_unknown_normalize
        (display : option Matrix -> list string -> DisplayPlotArgs
                   -> result Figure)
        (n : string) (xticks_rotation : string)
        (values_format : option string) (values_size : Z) (cmap : string)
        (figsize : Z) (display_args : Dict string) (s : Self) :
  n <> "true" -> n <> "pred" -> n <> "all" ->
  plot_with display (Some n) xticks_rotation values_format values_size
            cmap figsize display_args s
  = (s, inl (ValueError
               "normalize must be one of {'true', 'pred', 'all', None}")).
Proof.
  intros Htrue Hpred Hall. rewrite plot_unfold.
  unfold normalize_not_allowed.
  apply String.eqb_neq in Htrue, Hpred, Hall.
  rewrite Htrue, Hpred, Hall. reflexivity.
Qed.

(** X15: [plot] never changes the accumulator, whether it returns a
    figure or raises. *)
Theorem plot_leaves_accumulator_alone
        (display : option Matrix -> list string -> DisplayPlotArgs
                   -> result Figure)
        (normalize : option string) (xticks_rotation : string)
        (values_format : option string) (values_size : Z) (cmap : string)
        (figsize : Z) (display_args : Dict string) (s : Self) :
  fst (plot_with display normalize xticks_rotation values_format values_size
                 cmap figsize display_args s) = s.
Proof.
  rewrite plot_unfold.
  destruct (normalize_not_allowed normalize); [reflexivity |].
  destruct (_maybe_normalize' _ _) as [e | cm]; [reflexivity |].
  destruct (class_map _ s) as [c |]; [| reflexivity].
  destruct (display _ _ _) as [e | shown]; reflexivity.
Qed.

(** X16: on an accumulator that has no class map, as before the first
    [accumulate], [plot] always raises and the display is never
    called. *)
Theorem plot_without_class_map_raises
        (display display' : option Matrix -> list string -> DisplayPlotArgs
                            -> result Figure)
        (normalize : option string) (xticks_rotation : string)
        (values_format : option string) (values_size : Z) (cmap : string)
        (figsize : Z) (display_args : Dict string) (s : Self) :
  class_map _ s = None ->
  (exists e : PyError,
      plot_with display normalize xticks_rotation values_format values_size
                cmap figsize display_args s = (s, inl e))
  /\
  plot_with display normalize xticks_rotation values_format values_size
            cmap figsize display_args s
  = plot_with display' normalize xticks_rotation values_format values_size
              cmap figsize display_args s.
Proof.
  intros Hcm. rewrite !plot_unfold.
  destruct (normalize_not_allowed normalize);
    [split; [eexists |]; reflexivity |].
  destruct (_maybe_normalize' _ _) as [e | cm];
    [split; [eexists |]; reflexivity |].
  rewrite Hcm. split; [eexists |]; reflexivity.
Qed.

(** X17: after a [finalize] that returned, [plot] hands the display
    the matrix the statistics engine computed in that [finalize],
    passed through [_maybe_normalize], together with the class names
    [_id2class] of the class map; it does not raise AttributeError. *)
Theorem plot_after_finalize
        (display : option Matrix -> list string -> DisplayPlotArgs
                   -> result Figure)
        (normalize : option string) (xticks_rotation : string)
        (values_format : option string) (values_size : Z) (cmap : string)
        (figsize : Z) (display_args : Dict string)
        (s s' : Self) (value : Dict (list (Dict Float))) :
  finalize' s = (s', inr value) ->
  exists (cm : ClassMap) (m : Matrix),
    class_map _ s = Some cm /\
    sk_confusion_matrix (target_labels _ s) (predicted_labels _ s)
                        (class2id_values cm) = inr m /\
    plot_with display normalize xticks_rotation values_format values_size
              cmap figsize display_args s'
    = if normalize_not_allowed normalize then
        (s', inl (ValueError
                    "normalize must be one of {'true', 'pred', 'all', None}"))
      else
        match _maybe_normalize' (Some m) normalize with
        | inl e => (s', inl e)
        | inr shown_cm =>
            match display shown_cm (_id2class cm)
                          (mkDisplayPlotArgs
                             xticks_rotation cmap
                             (match values_format with
                              | Some _ =>
                                  Some (match normalize with
                                        | Some _ => ".2f"
                                        | None => "d"
                                        end)
                              | None => None
                              end)
                             display_args) with
            | inl e => (s', inl e)
            | inr shown => (s', style_figure shown values_size figsize)
            end
        end.
Proof.
  rewrite finalize_unfold.
  destruct (Nat.eqb _ _); [| discriminate].
  destruct (class_map _ s) as [cm |] eqn:Hcm; [| discriminate].
  cbn zeta.
  destruct (sk_confusion_matrix _ _ _) as [e | m] eqn:Hm; [discriminate |].
  destruct (sk_precision_recall_fscore_support _ _ _) as [e | prfs];
    [discriminate |].
  destruct (infra_vessel np_round prfs) as [e | dicts]; [discriminate |].
  intros H. injection H as <- _.
  exists cm, m. split; [reflexivity | split; [exact Hm |]].
  rewrite plot_unfold. cbn [confusion_matrix class_map finalized].
  rewrite Hcm. reflexivity.
Qed.

End PlotBehaviour.

(** * The further properties on the sample inputs *)

Section BehaviourOnSamples.

Import sample.

Abbreviation best_score := (fresh (PyEnum BEST_SCORE)).
Abbreviation call_match_records :=
  (confusion_matrix_utils.match_records_call reference.iou).
Abbreviation call_get_best_score_item :=
  confusion_matrix_utils.get_best_score_item_call.

(** Under BEST_IOU the second of three images raises; the labels of
    the first stay, the third is not reached. *)
Lemma accumulate_failure_keeps_processed_images_witness :
  sample.accumulate [false_positives; matched; false_positives]
                    (fresh (PyEnum BEST_IOU))
  = (mkSelf false [0; 0; 0]%Z [3; 5; 2]%Z (1 # 2) (PyEnum BEST_IOU)
            (Some classes) None [],
     inl NotImplementedError)
  /\
  exists (done : list Prediction) (p : Prediction) (rest : list Prediction)
         (s1 : SimpleConfusionMatrix sample.Matrix),
    [false_positives; matched; false_positives] = done ++ p :: rest /\
    sample.accumulate done (fresh (PyEnum BEST_IOU)) = (s1, inr tt) /\
    accumulate_pred call_match_records call_get_best_score_item p s1
    = (mkSelf false [0; 0; 0]%Z [3; 5; 2]%Z (1 # 2) (PyEnum BEST_IOU)
              (Some classes) None [],
       inl NotImplementedError) /\
    mkSelf false [0; 0; 0]%Z [3; 5; 2]%Z (1 # 2) (PyEnum BEST_IOU)
           (Some classes) None []
    = with_class_map_of p s1.
Proof.
  assert (H : sample.accumulate [false_positives; matched; false_positives]
                                (fresh (PyEnum BEST_IOU))
              = (mkSelf false [0; 0; 0]%Z [3; 5; 2]%Z (1 # 2) (PyEnum BEST_IOU)
                        (Some classes) None [],
                 inl NotImplementedError)) by reflexivity.
  split; [exact H |].
  exact (accumulate_failure_keeps_processed_images
           _ call_match_records call_get_best_score_item _ _ _ _ H).
Defined.

(** The last image carries no class map: none is left in the object. *)
Lemma accumulate_records_last_class_map_witness :
  sample.accumulate ([false_positives] ++ [unnamed_against_three]) best_score
  = (mkSelf false [0; 0; 0; 0; 0; 0]%Z [3; 5; 2; 3; 5; 2]%Z (1 # 2)
            (PyEnum BEST_SCORE) None None [],
     inr tt)
  /\
  class_map _ (mkSelf (Matrix := sample.Matrix) false
                      [0; 0; 0; 0; 0; 0]%Z [3; 5; 2; 3; 5; 2]%Z (1 # 2)
                      (PyEnum BEST_SCORE) None None [])
  = Detection.class_map (detection (ground_truth unnamed_against_three)).
Proof.
  assert (H : sample.accumulate ([false_positives] ++ [unnamed_against_three])
                                best_score
              = (mkSelf false [0; 0; 0; 0; 0; 0]%Z [3; 5; 2; 3; 5; 2]%Z (1 # 2)
                        (PyEnum BEST_SCORE) None None [],
                 inr tt)) by reflexivity.
  split; [exact H |].
  exact (accumulate_records_last_class_map
           _ call_match_records call_get_best_score_item _ _ _ _ H).
Defined.

(** Three predicted boxes, two Match entries, two pairs. *)
Lemma accumulate_counts_match_entries_only_witness :
  only_false_positives matched = false /\
  List.length (Detection.label_ids (detection (pred matched))) = 3%nat /\
  accumulate_pred call_match_records call_get_best_score_item matched
                  best_score
  = (mkSelf false [1; 2]%Z [1; 2]%Z (1 # 2) (PyEnum BEST_SCORE)
            (Some classes) None [],
     inr tt).
Proof.
  split; [reflexivity |]. split; [reflexivity |].
  apply (accumulate_counts_match_entries_only
           _ call_match_records call_get_best_score_item matched best_score
           [(mkTargetItem (box 0 0 4 4) 1,
             [mkPredictionItem (box 0 0 4 4) 1 (8 # 10) 1;
              mkPredictionItem (box 0 0 4 2) 2 (8 # 10) (1 # 2)]);
            (mkTargetItem (box 10 10 14 14) 2,
             [mkPredictionItem (box 10 10 14 14) 2 (6 # 10) 1])]
           [mkPredictionItem (box 0 0 4 4) 1 (8 # 10) 1;
            mkPredictionItem (box 10 10 14 14) 2 (6 # 10) 1]).
  - reflexivity.
  - reflexivity.
  - vm_compute. reflexivity.
  - repeat constructor.
Defined.

(** One target label, no predicted label. *)
Lemma finalize_rejects_misaligned_sequences_witness :
  ~ aligned (mkSelf (Matrix := sample.Matrix) false [1%Z] [] (1 # 2)
                    (PyEnum BEST_SCORE) (Some classes) None []) /\
  sample.finalize (mkSelf false [1%Z] [] (1 # 2) (PyEnum BEST_SCORE)
                          (Some classes) None [])
  = (mkSelf false [1%Z] [] (1 # 2) (PyEnum BEST_SCORE) (Some classes) None [],
     inl AssertionError).
Proof.
  assert (H : ~ aligned (mkSelf (Matrix := sample.Matrix) false [1%Z] []
                                (1 # 2) (PyEnum BEST_SCORE) (Some classes)
                                None []))
    by (unfold aligned; cbn; discriminate).
  split; [exact H |].
  exact (finalize_rejects_misaligned_sequences
           _ _ reference.confusion_matrix
           reference.precision_recall_fscore_support reference.round
           (mkSelf false [1%Z] [] (1 # 2) (PyEnum BEST_SCORE)
                   (Some classes) None [])
           H).
Defined.

(** Five label pairs and no class map: they are still there after the
    failed [finalize]. *)
Lemma finalize_failure_keeps_labels_witness :
  sample.finalize (mkSelf false [0; 0; 0; 1; 2]%Z [3; 5; 2; 1; 2]%Z (1 # 2)
                          (PyEnum BEST_SCORE) None None [])
  = (mkSelf false [0; 0; 0; 1; 2]%Z [3; 5; 2; 1; 2]%Z (1 # 2)
            (PyEnum BEST_SCORE) None None [],
     inl no_class_map)
  /\
  target_labels _ (fst (sample.finalize
                          (mkSelf false [0; 0; 0; 1; 2]%Z [3; 5; 2; 1; 2]%Z
                                  (1 # 2) (PyEnum BEST_SCORE) None None [])))
  = [0; 0; 0; 1; 2]%Z.
Proof.
  assert (H : sample.finalize
                (mkSelf false [0; 0; 0; 1; 2]%Z [3; 5; 2; 1; 2]%Z (1 # 2)
                        (PyEnum BEST_SCORE) None None [])
              = (mkSelf false [0; 0; 0; 1; 2]%Z [3; 5; 2; 1; 2]%Z (1 # 2)
                        (PyEnum BEST_SCORE) None None [],
                 inl no_class_map)) by reflexivity.
  split; [exact H |].
  exact (proj1 (finalize_failure_keeps_labels
                  _ _ reference.confusion_matrix
                  reference.precision_recall_fscore_support reference.round
                  _ _ _ H)).
Defined.

(** A class map of two classes: the engine answers vectors of two
    entries and [p[2]] is out of bounds. *)
Lemma finalize_short_vectors_index_error_witness :
  reference.precision_recall_fscore_support
    [1%Z] [1%Z]
    (class2id_values (mkClassMap ["background"; "Vessel"]
                                 [("background", 0%Z); ("Vessel", 1%Z)]))
  = inr ([0%Q; 1%Q], [0%Q; 1%Q], [0%Q; 1%Q], [0%Z; 1%Z])
  /\
  sample.finalize
    (mkSelf false [1%Z] [1%Z] (1 # 2) (PyEnum BEST_SCORE)
            (Some (mkClassMap ["background"; "Vessel"]
                              [("background", 0%Z); ("Vessel", 1%Z)]))
            None [])
  = (mkSelf false [1%Z] [1%Z] (1 # 2) (PyEnum BEST_SCORE)
            (Some (mkClassMap ["background"; "Vessel"]
                              [("background", 0%Z); ("Vessel", 1%Z)]))
            (Some [[0; 0]; [0; 1]]%Z) [],
     inl (IndexError "index is out of bounds for axis 0")).
Proof.
  split; [reflexivity |].
  apply (finalize_short_vectors_index_error
           _ _ reference.confusion_matrix
           reference.precision_recall_fscore_support reference.round
           (mkSelf false [1%Z] [1%Z] (1 # 2) (PyEnum BEST_SCORE)
                   (Some (mkClassMap ["background"; "Vessel"]
                                     [("background", 0%Z); ("Vessel", 1%Z)]))
                   None [])
           (mkClassMap ["background"; "Vessel"]
                       [("background", 0%Z); ("Vessel", 1%Z)])
           [[0; 0]; [0; 1]]%Z
           [0%Q; 1%Q] [0%Q; 1%Q] [0%Q; 1%Q] [0%Z; 1%Z]).
  - reflexivity.
  - reflexivity.
  - reflexivity.
  - reflexivity.
  - left. cbn. lia.
Defined.

(** With [print_summary] on, the matrix of the five label pairs is
    written once. *)
Lemma finalize_prints_stored_matrix_witness :
  snd (sample.finalize (mkSelf true [0; 0; 0; 1; 2]%Z [3; 5; 2; 1; 2]%Z
                               (1 # 2) (PyEnum BEST_SCORE) (Some classes)
                               None []))
  = inr [("dummy_value_for_fastai",
          [ [("Infra P", 1%Q); ("Vessel P", (1 # 2)%Q)];
            [("Infra Recall", 1%Q); ("Vessel Recall", 1%Q)];
            [("Infra f1", 1%Q); ("Vessel f1", (667 # 1000)%Q)] ])]
  /\
  stdout _ (fst (sample.finalize
                   (mkSelf true [0; 0; 0; 1; 2]%Z [3; 5; 2; 1; 2]%Z
                           (1 # 2) (PyEnum BEST_SCORE) (Some classes)
                           None [])))
  = [] ++ [confusion_matrix _
             (fst (sample.finalize
                     (mkSelf true [0; 0; 0; 1; 2]%Z [3; 5; 2; 1; 2]%Z
                             (1 # 2) (PyEnum BEST_SCORE) (Some classes)
                             None [])))].
Proof.
  split; [reflexivity |].
  exact (proj2 (finalize_prints_stored_matrix
                  _ _ reference.confusion_matrix
                  reference.precision_recall_fscore_support reference.round
                  (mkSelf true [0; 0; 0; 1; 2]%Z [3; 5; 2; 1; 2]%Z
                          (1 # 2) (PyEnum BEST_SCORE) (Some classes) None [])
                  (fst (sample.finalize
                          (mkSelf true [0; 0; 0; 1; 2]%Z [3; 5; 2; 1; 2]%Z
                                  (1 # 2) (PyEnum BEST_SCORE) (Some classes)
                                  None [])))
                  [("dummy_value_for_fastai",
                    [ [("Infra P", 1%Q); ("Vessel P", (1 # 2)%Q)];
                      [("Infra Recall", 1%Q); ("Vessel Recall", 1%Q)];
                      [("Infra f1", 1%Q); ("Vessel f1", (667 # 1000)%Q)] ])]
                  eq_refl)).
Defined.

(** Two runs, one of them raising, on an accumulator constructed
    with [print_summary] off. *)
Lemma run_without_summary_prints_nothing_witness :
  print_summary _ best_score = false /\
  stdout _ (run call_match_records call_get_best_score_item
                reference.confusion_matrix
                reference.precision_recall_fscore_support reference.round
                [CallAccumulate [false_positives; matched]; CallFinalize;
                 CallFinalize; CallAccumulate [ragged_false_positives];
                 CallFinalize]
                best_score)
  = [].
Proof.
  split; [reflexivity |].
  exact (run_without_summary_prints_nothing
           _ _ call_match_records call_get_best_score_item
           reference.confusion_matrix
           reference.precision_recall_fscore_support reference.round
           _ best_score eq_refl).
Defined.

(** The first image has a class map, the last has none. *)
Lemma finalize_uses_last_class_map_witness :
  aligned best_score /\
  sample.accumulate ([false_positives] ++ [unnamed_against_three]) best_score
  = (mkSelf false [0; 0; 0; 0; 0; 0]%Z [3; 5; 2; 3; 5; 2]%Z (1 # 2)
            (PyEnum BEST_SCORE) None None [],
     inr tt)
  /\
  snd (sample.finalize
         (mkSelf false [0; 0; 0; 0; 0; 0]%Z [3; 5; 2; 3; 5; 2]%Z (1 # 2)
                 (PyEnum BEST_SCORE) None None []))
  = inl no_class_map.
Proof.
  assert (Hal : aligned best_score) by reflexivity.
  assert (H : sample.accumulate ([false_positives] ++ [unnamed_against_three])
                                best_score
              = (mkSelf false [0; 0; 0; 0; 0; 0]%Z [3; 5; 2; 3; 5; 2]%Z (1 # 2)
                        (PyEnum BEST_SCORE) None None [],
                 inr tt)) by reflexivity.
  split; [exact Hal |]. split; [exact H |].
  exact (finalize_uses_last_class_map
           _ _ call_match_records call_get_best_score_item
           reference.confusion_matrix
           reference.precision_recall_fscore_support reference.round
           _ _ _ _ Hal H).
Defined.

(** "row" is no accepted mode. *)
Lemma plot_rejects_unknown_normalize_witness :
  "row" <> "true" /\ "row" <> "pred" /\ "row" <> "all" /\
  spy.plot (Some "row") None
           (mkSelf false [] [] (1 # 2) (PyEnum BEST_SCORE) (Some classes)
                   (Some (repeat (repeat 0%Z 6) 6)) [])
  = (mkSelf false [] [] (1 # 2) (PyEnum BEST_SCORE) (Some classes)
            (Some (repeat (repeat 0%Z 6) 6)) [],
     inl (ValueError "normalize must be one of {'true', 'pred', 'all', None}")).
Proof.
  assert (H1 : "row" <> "true") by discriminate.
  assert (H2 : "row" <> "pred") by discriminate.
  assert (H3 : "row" <> "all") by discriminate.
  split; [exact H1 |]. split; [exact H2 |]. split; [exact H3 |].
  exact (plot_rejects_unknown_normalize
           _ _ spy.numpy spy.numpy spy.numpy spy.numpy spy.style_figure
           spy.cm_display_plot "row" "vertical" None 12 "PuBu" 11 [] _
           H1 H2 H3).
Defined.

(** A freshly constructed accumulator cannot be plotted. *)
Lemma plot_without_class_map_raises_witness :
  class_map _ best_score = None /\
  spy.plot None None best_score
  = (best_score,
     inl (AttributeError "'NoneType' object has no attribute '_id2class'")).
Proof.
  split; [reflexivity |].
  destruct (proj1 (plot_without_class_map_raises
                     _ _ spy.numpy spy.numpy spy.numpy spy.numpy
                     spy.style_figure spy.cm_display_plot spy.cm_display_plot
                     None "vertical" None 12 "PuBu" 11 [] best_score eq_refl))
    as [e He].
  reflexivity.
Defined.

(** The display receives the class names of the samples. *)
Lemma plot_after_finalize_witness :
  snd (sample.finalize (mkSelf false [0; 0; 0; 1; 2]%Z [3; 5; 2; 1; 2]%Z
                               (1 # 2) (PyEnum BEST_SCORE) (Some classes)
                               None []))
  = inr [("dummy_value_for_fastai",
          [ [("Infra P", 1%Q); ("Vessel P", (1 # 2)%Q)];
            [("Infra Recall", 1%Q); ("Vessel Recall", 1%Q)];
            [("Infra f1", 1%Q); ("Vessel f1", (667 # 1000)%Q)] ])]
  /\
  exists (cm : ClassMap) (m : sample.Matrix),
    Some classes = Some cm /\
    reference.confusion_matrix [0; 0; 0; 1; 2]%Z [3; 5; 2; 1; 2]%Z
                               (class2id_values cm) = inr m /\
    plot spy.numpy spy.numpy spy.numpy spy.numpy
         (fun (cm : option sample.Matrix) (display_labels : list string)
              (_ : DisplayPlotArgs) => ok (cm, display_labels))
         (fun figure _ _ => ok figure)
         (Some "all") "vertical" None 12 "PuBu" 11 []
         (fst (sample.finalize
                 (mkSelf false [0; 0; 0; 1; 2]%Z [3; 5; 2; 1; 2]%Z
                         (1 # 2) (PyEnum BEST_SCORE) (Some classes) None [])))
    = (fst (sample.finalize
              (mkSelf false [0; 0; 0; 1; 2]%Z [3; 5; 2; 1; 2]%Z
                      (1 # 2) (PyEnum BEST_SCORE) (Some classes) None [])),
       inr (Some m, _id2class cm)).
Proof.
  split; [reflexivity |].
  destruct (plot_after_finalize
              _ _ _ reference.confusion_matrix
              reference.precision_recall_fscore_support reference.round
              spy.numpy spy.numpy spy.numpy spy.numpy
              (fun figure _ _ => ok figure)
              (fun (cm : option sample.Matrix) (display_labels : list string)
                   (_ : DisplayPlotArgs) => ok (cm, display_labels))
              (Some "all") "vertical" None 12 "PuBu" 11 []
              (mkSelf false [0; 0; 0; 1; 2]%Z [3; 5; 2; 1; 2]%Z
                      (1 # 2) (PyEnum BEST_SCORE) (Some classes) None [])
              (fst (sample.finalize
                      (mkSelf false [0; 0; 0; 1; 2]%Z [3; 5; 2; 1; 2]%Z
                              (1 # 2) (PyEnum BEST_SCORE) (Some classes)
                              None [])))
              [("dummy_value_for_fastai",
                [ [("Infra P", 1%Q); ("Vessel P", (1 # 2)%Q)];
                  [("Infra Recall", 1%Q); ("Vessel Recall", 1%Q)];
                  [("Infra f1", 1%Q); ("Vessel f1", (667 # 1000)%Q)] ])]
              eq_refl)
    as (cm & m & Hcm & Hm & Hplot).
  exists cm, m. split; [exact Hcm |]. split; [exact Hm |].
  exact (eq_trans Hplot eq_refl).
Defined.

End BehaviourOnSamples.
